(** * winpty agent: the terminal encoder of [src/agent/Terminal.cc]

    A shallow embedding of the [Terminal] class: the encoder state is a
    record, every member function is a function on that record, and the
    [NamedPipe] the encoder writes to is the list of the writes issued so
    far (one entry per call of [m_output->write], oldest first).

    Integers: rows, columns and colours are C [int]s and are modelled on
    [Z]; the code only adds and subtracts small row numbers, signed
    overflow is undefined in C++ and is outside the model.  [unsigned int]
    arguments are reduced modulo [2^32].  Byte strings ([std::string],
    string literals, [char] buffers) are [string]s. *)

From Stdlib Require Import ZArith List String Ascii Bool Lia.
Import ListNotations.

Open Scope string_scope.
Open Scope Z_scope.

(** ** Byte strings *)

Module Bytes.

(** [data(), n]: the first [n] bytes of a buffer. *)
Definition take (n : nat) (s : string) : string := substring 0 n s.

(** [n] space bytes. *)
Fixpoint spaces (n : nat) : string :=
  match n with
  | O => ""
  | S n => String " " (spaces n)
  end.

(** The bytes of a sequence of pieces, in order. *)
Definition flatten (pieces : list string) : string :=
  fold_right append "" pieces.

End Bytes.

(** ** Constants *)

(** [#define CSI "\x1b["] *)
Definition CSI : string := String "027" "[".

(** The literals ["\r"] and ["\r\n"]. *)
Definition CR   : string := String "013" "".
Definition CRLF : string := String "013" (String "010" "").

(** Modelled from the spec: the console attribute bit masks come from
    [windows.h] (wincon.h), which is not part of the repository; the spec
    only says that an attribute word packs a 3-bit RGB value and an
    intensity flag per channel.  The values are those of the Windows SDK. *)
Definition FOREGROUND_BLUE      : Z := 0x01.
Definition FOREGROUND_GREEN     : Z := 0x02.
Definition FOREGROUND_RED       : Z := 0x04.
Definition FOREGROUND_INTENSITY : Z := 0x08.
Definition BACKGROUND_BLUE      : Z := 0x10.
Definition BACKGROUND_GREEN     : Z := 0x20.
Definition BACKGROUND_RED       : Z := 0x40.
Definition BACKGROUND_INTENSITY : Z := 0x80.

Definition COLOR_ATTRIBUTE_MASK : Z :=
  Z.lor FOREGROUND_BLUE
 (Z.lor FOREGROUND_GREEN
 (Z.lor FOREGROUND_RED
 (Z.lor FOREGROUND_INTENSITY
 (Z.lor BACKGROUND_BLUE
 (Z.lor BACKGROUND_GREEN
 (Z.lor BACKGROUND_RED
        BACKGROUND_INTENSITY)))))).

Definition FLAG_RED    : Z := 1.
Definition FLAG_GREEN  : Z := 2.
Definition FLAG_BLUE   : Z := 4.
Definition FLAG_BRIGHT : Z := 8.

Definition BLACK  : Z := 0.
Definition DKGRAY : Z := Z.lor BLACK FLAG_BRIGHT.
Definition LTGRAY : Z := Z.lor FLAG_RED (Z.lor FLAG_GREEN FLAG_BLUE).
Definition WHITE  : Z := Z.lor LTGRAY FLAG_BRIGHT.

Definition SGR_FORE    : Z := 30.
Definition SGR_FORE_HI : Z := 90.
Definition SGR_BACK    : Z := 40.
Definition SGR_BACK_HI : Z := 100.

Definition WINPTY_COMMON_LVB_LEADING_BYTE  : Z := 0x100.
Definition WINPTY_COMMON_LVB_TRAILING_BYTE : Z := 0x200.

(** The C test [if (v & mask)]. *)
Definition flagSet (v mask : Z) : bool := negb (Z.land v mask =? 0).

(** ** Decimal output *)

(** ['0' + d] *)
Definition digitChar (d : Z) : ascii := ascii_of_N (Z.to_N (48 + d)).

(** The [do { *(--pbuf) = '0' + n % 10; n /= 10; } while (n != 0);] loop of
    [outUInt].  The buffer has room for 31 digits, which bounds the number
    of iterations ([fuel] counts the iterations after the first). *)
Fixpoint outUInt_loop (fuel : nat) (n : Z) (pbuf : string) : string :=
  let pbuf := String (digitChar (n mod 10)) pbuf in
  let n := n / 10 in
  if n =? 0 then pbuf
  else match fuel with
       | O => pbuf
       | S fuel => outUInt_loop fuel n pbuf
       end.

(** [static void outUInt(std::string &out, unsigned int n)] *)
Definition outUInt (out : string) (n : Z) : string :=
  out ++ outUInt_loop 30 (n mod 2 ^ 32) "".

(** The [%d] conversion of [sprintf] (C library): an optional minus sign
    and the decimal digits of the magnitude. *)
Definition sprintf_d (n : Z) : string :=
  if n <? 0 then "-" ++ outUInt_loop 30 (- n) ""
  else outUInt_loop 30 n "".

(** ** SGR colour parameters *)

(** [static void outputSetColorSgrParams(std::string &out, bool isFore, int color)] *)
Definition outputSetColorSgrParams (out : string) (isFore : bool) (color : Z) : string :=
  let out := out ++ ";" in
  let sgrBase := if isFore then SGR_FORE else SGR_BACK in
  if flagSet color FLAG_BRIGHT then
    let colorBase := Z.land color (Z.lnot FLAG_BRIGHT) in
    let out := outUInt out (sgrBase + colorBase) in
    let out := out ++ ";" in
    outUInt out (sgrBase + (SGR_FORE_HI - SGR_FORE) + colorBase)
  else
    outUInt out (sgrBase + color).

(** The [fore] value computed at the head of the colour block of
    [sendLine] (lines 144-149): the console's BGR bit order is turned into
    the RGB order of the SGR palette. *)
Definition sendLine_fore (color : Z) : Z :=
  let fore := 0 in
  let fore := if flagSet color FOREGROUND_RED then Z.lor fore FLAG_RED else fore in
  let fore := if flagSet color FOREGROUND_GREEN then Z.lor fore FLAG_GREEN else fore in
  let fore := if flagSet color FOREGROUND_BLUE then Z.lor fore FLAG_BLUE else fore in
  let fore := if flagSet color FOREGROUND_INTENSITY then Z.lor fore FLAG_BRIGHT else fore in
  fore.

(** The [back] value of the same block (lines 150-153). *)
Definition sendLine_back (color : Z) : Z :=
  let back := 0 in
  let back := if flagSet color BACKGROUND_RED then Z.lor back FLAG_RED else back in
  let back := if flagSet color BACKGROUND_GREEN then Z.lor back FLAG_GREEN else back in
  let back := if flagSet color BACKGROUND_BLUE then Z.lor back FLAG_BLUE else back in
  let back := if flagSet color BACKGROUND_INTENSITY then Z.lor back FLAG_BRIGHT else back in
  back.

(** The body of [if (color != m_remoteColor && !m_consoleMode)] in
    [sendLine] (lines 191-238), as a function of the row buffer: the SGR
    fragment for [color] is appended to [termLine]. *)
Definition sendLine_color (termLine : string) (color : Z) : string :=
  let fore := sendLine_fore color in
  let back := sendLine_back color in
  let termLine := termLine ++ CSI ++ "0" in
  let termLine :=
    if back =? BLACK then
      if fore =? LTGRAY then termLine
      else if fore =? WHITE then termLine ++ ";1"
      else if fore =? DKGRAY then termLine ++ ";37;90"
      else outputSetColorSgrParams termLine true fore
    else if back =? WHITE then
      let termLine := termLine ++ ";7" in
      if (fore =? LTGRAY) || (fore =? BLACK) then termLine
      else outputSetColorSgrParams termLine false fore
    else
      let termLine := outputSetColorSgrParams termLine true fore in
      outputSetColorSgrParams termLine false back in
  let termLine := if fore =? back then termLine ++ ";8" else termLine in
  termLine ++ "m".

(** ** The encoder state *)

(** [CHAR_INFO] (wincon.h): a UTF-16 code unit and an attribute word. *)
Record CHAR_INFO := mkCHAR_INFO {
  UnicodeChar : Z;   (* wchar_t, 0 .. 65535 *)
  Attributes  : Z    (* WORD,    0 .. 65535 *)
}.

(** The data members of [class Terminal].  [m_output] is the [NamedPipe]
    seen from the encoder: the writes issued to it, oldest first. *)
Record Terminal := mkTerminal {
  m_output       : list string;
  m_remoteLine   : Z;
  m_cursorHidden : bool;
  m_cursorPos    : Z * Z;
  m_remoteColor  : Z;
  m_consoleMode  : bool;
  m_termLine     : string
}.

Definition set_remoteLine (v : Z) (t : Terminal) : Terminal :=
  mkTerminal (m_output t) v (m_cursorHidden t) (m_cursorPos t)
             (m_remoteColor t) (m_consoleMode t) (m_termLine t).

Definition set_cursorHidden (v : bool) (t : Terminal) : Terminal :=
  mkTerminal (m_output t) (m_remoteLine t) v (m_cursorPos t)
             (m_remoteColor t) (m_consoleMode t) (m_termLine t).

Definition set_cursorPos (v : Z * Z) (t : Terminal) : Terminal :=
  mkTerminal (m_output t) (m_remoteLine t) (m_cursorHidden t) v
             (m_remoteColor t) (m_consoleMode t) (m_termLine t).

Definition set_remoteColor (v : Z) (t : Terminal) : Terminal :=
  mkTerminal (m_output t) (m_remoteLine t) (m_cursorHidden t) (m_cursorPos t)
             v (m_consoleMode t) (m_termLine t).

Definition set_termLine (v : string) (t : Terminal) : Terminal :=
  mkTerminal (m_output t) (m_remoteLine t) (m_cursorHidden t) (m_cursorPos t)
             (m_remoteColor t) (m_consoleMode t) v.

(** [m_output->write(s)]: one more write on the sink. *)
Definition write (s : string) (t : Terminal) : Terminal :=
  mkTerminal (m_output t ++ [s])%list (m_remoteLine t) (m_cursorHidden t)
             (m_cursorPos t) (m_remoteColor t) (m_consoleMode t) (m_termLine t).

(** [if (!m_consoleMode) m_output->write(s);] *)
Definition writeUnlessConsole (s : string) (t : Terminal) : Terminal :=
  if negb (m_consoleMode t) then write s t else t.

(** [Terminal::Terminal(NamedPipe *output)]; [m_cursorPos] and [m_termLine]
    are default-constructed. *)
Definition Terminal_new : Terminal :=
  mkTerminal [] 0 false (0, 0) (-1) false "".

(** [void Terminal::setConsoleMode(int mode)] *)
Definition setConsoleMode (mode : Z) (t : Terminal) : Terminal :=
  mkTerminal (m_output t) (m_remoteLine t) (m_cursorHidden t) (m_cursorPos t)
             (m_remoteColor t) (if mode =? 1 then true else false) (m_termLine t).

(** [void Terminal::reset(bool sendClearFirst, int newLine)] *)
Definition reset (sendClearFirst : bool) (newLine : Z) (t : Terminal) : Terminal :=
  let t := if sendClearFirst && negb (m_consoleMode t)
           then write (CSI ++ "0m" ++ CSI ++ "1;1H" ++ CSI ++ "2J") t
           else t in
  let t := set_remoteLine newLine t in
  let t := set_cursorHidden false t in
  let t := set_cursorPos (0, newLine) t in
  set_remoteColor (-1) t.

(** [void Terminal::hideTerminalCursor()] *)
Definition hideTerminalCursor (t : Terminal) : Terminal :=
  if m_cursorHidden t then t
  else
    let t := writeUnlessConsole (CSI ++ "?25l") t in
    set_cursorHidden true t.

(** The loop [while (line > m_remoteLine) { ...; m_remoteLine++; }] of
    [moveTerminalToLine]; it runs [line - m_remoteLine] times, which is the
    fuel it is started with. *)
Fixpoint moveTerminalToLine_loop (fuel : nat) (line : Z) (t : Terminal) : Terminal :=
  match fuel with
  | O => t
  | S fuel =>
      if line >? m_remoteLine t then
        let t := writeUnlessConsole CRLF t in
        let t := set_remoteLine (m_remoteLine t + 1) t in
        moveTerminalToLine_loop fuel line t
      else t
  end.

(** [void Terminal::moveTerminalToLine(int line)] *)
Definition moveTerminalToLine (line : Z) (t : Terminal) : Terminal :=
  if line <? m_remoteLine t then
    let buffer := CR ++ CSI ++ sprintf_d (m_remoteLine t - line) ++ "A" in
    let t := writeUnlessConsole buffer t in
    set_remoteLine line t
  else if line >? m_remoteLine t then
    moveTerminalToLine_loop (Z.to_nat (line - m_remoteLine t)) line t
  else
    write CR t.

(** [void Terminal::finishOutput(const std::pair<int, int> &newCursorPos)] *)
Definition finishOutput (newCursorPos : Z * Z) (t : Terminal) : Terminal :=
  let t := if negb ((fst newCursorPos =? fst (m_cursorPos t)) &&
                    (snd newCursorPos =? snd (m_cursorPos t)))
           then hideTerminalCursor t else t in
  let t := if m_cursorHidden t then
             let t := moveTerminalToLine (snd newCursorPos) t in
             let buffer := CSI ++ sprintf_d (fst newCursorPos + 1) ++ "G" ++
                           CSI ++ "?25h" in
             let t := writeUnlessConsole buffer t in
             set_cursorHidden false t
           else t in
  set_cursorPos newCursorPos t.

(** ** Rendering one row *)

Section SendLine.

(** [WideCharToMultiByte(CP_UTF8, 0, &ch, 1, mbstr, sizeof(mbstr), NULL, NULL)]
    is a Win32 call: the development is parametric in it.  The function
    gives the bytes stored in [mbstr]; the call's result [mblen] is their
    number, and the empty string stands for a failed conversion. *)
Variable WideCharToMultiByte : Z -> string.

(** Lines 251-286 of [sendLine]: the box-drawing remapping, the conversion
    and the ['?'] fallback; the result is [mbstr[0 .. mblen)]. *)
Definition sendLine_glyph (cell : CHAR_INFO) : string :=
  let ch := UnicodeChar cell in
  let ch := if ch <=? 6 then
              match ch with
              | 1 => 0x2554
              | 2 => 0x2557
              | 3 => 0x255A
              | 4 => 0x255D
              | 5 => 0x2551
              | 6 => 0x2550
              | _ => ch
              end
            else ch in
  let mbstr := WideCharToMultiByte ch in
  if Z.of_nat (String.length mbstr) <=? 0 then "?" else mbstr.

(** [mblen == 1 && mbstr[0] == ' '] *)
Definition isSingleSpace (mbstr : string) : bool :=
  (Z.of_nat (String.length mbstr) =? 1) &&
  match String.get 0 mbstr with
  | Some c => Ascii.eqb c " "
  | None => false
  end.

(** One iteration of the [for] loop of [sendLine].  The loop state is the
    encoder (of which [m_termLine] and [m_remoteColor] change) and the
    local [length]. *)
Definition sendLine_cell (st : Terminal * nat) (cell : CHAR_INFO) : Terminal * nat :=
  let t := fst st in
  let length := snd st in
  let color := Z.land (Attributes cell) COLOR_ATTRIBUTE_MASK in
  let changed := negb (color =? m_remoteColor t) && negb (m_consoleMode t) in
  let t := if changed
           then set_termLine (sendLine_color (m_termLine t) color) t else t in
  let length := if changed then String.length (m_termLine t) else length in
  let t := set_remoteColor color t in
  if flagSet (Attributes cell) WINPTY_COMMON_LVB_TRAILING_BYTE then (t, length)
  else
    let mbstr := sendLine_glyph cell in
    if isSingleSpace mbstr then
      (set_termLine (m_termLine t ++ " ") t, length)
    else
      let t := set_termLine (m_termLine t ++ mbstr) t in
      (t, String.length (m_termLine t)).

(** The [for (int i = 0; i < width; ++i)] loop over [lineData[0 .. width)].
    [lineData] points to at least [width] cells (reading past the array is
    undefined); a [width] that is not positive gives no iteration. *)
Definition sendLine_loop (lineData : list CHAR_INFO) (width : Z)
    (st : Terminal * nat) : Terminal * nat :=
  fold_left sendLine_cell (firstn (Z.to_nat width) lineData) st.

(** [void Terminal::sendLine(int line, CHAR_INFO *lineData, int width)] *)
Definition sendLine (line : Z) (lineData : list CHAR_INFO) (width : Z)
    (t : Terminal) : Terminal :=
  let t := hideTerminalCursor t in
  let t := moveTerminalToLine line t in
  let t := writeUnlessConsole (CSI ++ "2K") t in
  let t := set_termLine "" t in
  let st := sendLine_loop lineData width (t, 0%nat) in
  write (Bytes.take (snd st) (m_termLine (fst st))) (fst st).

End SendLine.

(** Modelled from the spec: [WideCharToMultiByte] is a Win32 call and not
    part of the repository; the spec has the code unit encoded as UTF-8 and
    the encoding fail on an invalid scalar value (here: a surrogate code
    unit), for which the empty string stands.  This instance is what the
    sample sessions run with; the theorems hold for every conversion. *)
Definition byteChar (b : Z) : ascii := ascii_of_N (Z.to_N b).

Definition utf8_of_wchar (ch : Z) : string :=
  if ch <? 0x80 then String (byteChar ch) ""
  else if ch <? 0x800 then
    String (byteChar (Z.lor 0xC0 (Z.shiftr ch 6)))
   (String (byteChar (Z.lor 0x80 (Z.land ch 0x3F))) "")
  else if (0xD800 <=? ch) && (ch <=? 0xDFFF) then ""
  else
    String (byteChar (Z.lor 0xE0 (Z.shiftr ch 12)))
   (String (byteChar (Z.lor 0x80 (Z.land (Z.shiftr ch 6) 0x3F)))
   (String (byteChar (Z.lor 0x80 (Z.land ch 0x3F))) "")).

(** Sample cells and a sample session. *)
Definition cellA : CHAR_INFO := mkCHAR_INFO 65 0x07.        (* 'A', light gray on black *)
Definition cellBlankBlue : CHAR_INFO := mkCHAR_INFO 32 0x17. (* ' ', light gray on blue *)
Definition cellTrail : CHAR_INFO := mkCHAR_INFO 0x3042 0x207. (* trailing half of a wide cell *)


(** ** Vocabulary for the statements

    Names for the pieces of one loop iteration of [sendLine], and for runs
    of operations. *)

(** [lineData[i].Attributes & COLOR_ATTRIBUTE_MASK] *)
Definition cellColor (cell : CHAR_INFO) : Z :=
  Z.land (Attributes cell) COLOR_ATTRIBUTE_MASK.

(** The loop's test [color != m_remoteColor && !m_consoleMode]. *)
Definition cellChanged (t : Terminal) (cell : CHAR_INFO) : bool :=
  negb (cellColor cell =? m_remoteColor t) && negb (m_consoleMode t).

(** The colour fragment an iteration appends for a cell: the fragment of
    the cell's colour when the test holds, nothing otherwise. *)
Definition cellFragment (t : Terminal) (cell : CHAR_INFO) : string :=
  if cellChanged t cell then sendLine_color "" (cellColor cell) else "".

(** [lineData[i].Attributes & WINPTY_COMMON_LVB_TRAILING_BYTE] *)
Definition cellTrailing (cell : CHAR_INFO) : bool :=
  flagSet (Attributes cell) WINPTY_COMMON_LVB_TRAILING_BYTE.

(** The encoded bytes an iteration appends for a cell. *)
Definition cellText (enc : Z -> string) (cell : CHAR_INFO) : string :=
  if cellTrailing cell then "" else sendLine_glyph enc cell.

(** The belief part of the encoder state: everything but the sink, the
    mode switch and the scratch buffer. *)
Definition belief (t : Terminal) : Z * bool * (Z * Z) * Z :=
  (m_remoteLine t, m_cursorHidden t, m_cursorPos t, m_remoteColor t).

(** The operations of the encoder with their inputs. *)
Inductive operation : Type :=
| OpReset (sendClearFirst : bool) (newLine : Z)
| OpSendLine (line : Z) (lineData : list CHAR_INFO) (width : Z)
| OpFinishOutput (newCursorPos : Z * Z)
| OpHideTerminalCursor
| OpMoveTerminalToLine (line : Z).

Definition perform (enc : Z -> string) (o : operation) (t : Terminal) : Terminal :=
  match o with
  | OpReset sendClearFirst newLine => reset sendClearFirst newLine t
  | OpSendLine line lineData width => sendLine enc line lineData width t
  | OpFinishOutput newCursorPos => finishOutput newCursorPos t
  | OpHideTerminalCursor => hideTerminalCursor t
  | OpMoveTerminalToLine line => moveTerminalToLine line t
  end.

(** A sequence of operations, first to last. *)
Definition performAll (enc : Z -> string) (os : list operation) (t : Terminal) : Terminal :=
  fold_left (fun t o => perform enc o t) os t.

(** The pieces the loop of [sendLine] appends to the row buffer for given
    cells, one after the other: for each cell its colour fragment, when the
    colour differs from the colour before it and console mode is off, and
    then its encoded bytes, unless the cell is a trailing half.
    [remoteColor] is the colour before the first cell. *)
Fixpoint rowEmissions (enc : Z -> string) (remoteColor : Z) (consoleMode : bool)
    (cells : list CHAR_INFO) : list string :=
  match cells with
  | [] => []
  | cell :: cells =>
      ((if negb (cellColor cell =? remoteColor) && negb consoleMode
        then [sendLine_color "" (cellColor cell)] else []) ++
       (if cellTrailing cell then [] else [sendLine_glyph enc cell]) ++
       rowEmissions enc (cellColor cell) consoleMode cells)%list
  end.

(** A sequence of pieces without the single spaces it starts with. *)
Fixpoint dropLeadingBlanks (pieces : list string) : list string :=
  match pieces with
  | [] => []
  | piece :: rest =>
      if (piece =? " ")%string then dropLeadingBlanks rest else pieces
  end.

(** A sequence of pieces without the single spaces it ends with. *)
Definition dropTrailingBlanks (pieces : list string) : list string :=
  rev (dropLeadingBlanks (rev pieces)).

(** The loop of [sendLine] over given cells, as the fold it is. *)
Definition cells_loop (enc : Z -> string) :
    list CHAR_INFO -> Terminal * nat -> Terminal * nat :=
  fold_left (sendLine_cell enc).

(** The encoder as the loop of [sendLine] finds it: cursor hidden, moved
    to the row, the line erased and the row buffer cleared. *)
Definition sendLine_prepared (line : Z) (t : Terminal) : Terminal :=
  set_termLine ""
    (writeUnlessConsole (CSI ++ "2K")
       (moveTerminalToLine line (hideTerminalCursor t))).

(** The encoder after a first rendering of the one-cell row [cellA] on
    row 0 of a new terminal. *)
Definition afterRowA : Terminal :=
  sendLine utf8_of_wchar 0 [cellA] 1 Terminal_new.

(** ** Reading decimal numbers and SGR fragments back

    The inverse direction of [outUInt] and of the colour block of
    [sendLine]: what a terminal reads out of the bytes. *)

Definition isDigit (c : ascii) : bool :=
  (48 <=? Z.of_N (N_of_ascii c)) && (Z.of_N (N_of_ascii c) <=? 57).

Definition digitValue (c : ascii) : Z := Z.of_N (N_of_ascii c) - 48.

Fixpoint allDigits (s : string) : bool :=
  match s with
  | EmptyString => true
  | String c s => isDigit c && allDigits s
  end.

(** The number a run of decimal digits stands for, continuing from [acc]. *)
Fixpoint decimalValue_from (acc : Z) (s : string) : Z :=
  match s with
  | EmptyString => acc
  | String c s => decimalValue_from (10 * acc + digitValue c) s
  end.

Definition decimalValue (s : string) : Z := decimalValue_from 0 s.

(** The pieces of [s] between the occurrences of [sep]. *)
Fixpoint splitOn (sep : ascii) (s : string) : list string :=
  match s with
  | EmptyString => [EmptyString]
  | String c s =>
      if Ascii.eqb c sep then EmptyString :: splitOn sep s
      else match splitOn sep s with
           | piece :: rest => String c piece :: rest
           | [] => [String c EmptyString]
           end
  end.

(** A non-empty run of digits as a number. *)
Definition parseNumber (s : string) : option Z :=
  match s with
  | EmptyString => None
  | _ => if allDigits s then Some (decimalValue s) else None
  end.

Fixpoint parseNumbers (l : list string) : option (list Z) :=
  match l with
  | [] => Some []
  | s :: l =>
      match parseNumber s, parseNumbers l with
      | Some n, Some ns => Some (n :: ns)
      | _, _ => None
      end
  end.

(** [s] without its last byte, when that byte is [c]. *)
Fixpoint stripFinal (c : ascii) (s : string) : option string :=
  match s with
  | EmptyString => None
  | String a EmptyString => if Ascii.eqb a c then Some EmptyString else None
  | String a s' => option_map (String a) (stripFinal c s')
  end.

(** The parameters of an SGR control sequence [ESC [ p1 ; ... ; pn m], as
    a terminal reads them; [None] for any other bytes. *)
Definition sgrParams (s : string) : option (list Z) :=
  match s with
  | String e (String b body) =>
      if Ascii.eqb e "027" && Ascii.eqb b "[" then
        match stripFinal "m" body with
        | Some ps => parseNumbers (splitOn ";" ps)
        | None => None
        end
      else None
  | _ => None
  end.

(** The SGR parameters of one colour channel: the code [base + X] of the
    colour [X] without its bright bit and, for a bright colour, the code
    [base + 60 + X] after it. *)
Definition channelParams (base color : Z) : list Z :=
  if 8 <=? color then [base + (color - 8); base + 60 + (color - 8)]
  else [base + color].

(** The SGR parameters of a colour pair, by the policy of the colour
    block of [sendLine]: reset; on black the foreground alone, with bold
    for white and 37, 90 for dark gray and nothing for light gray; on white
    invert and the foreground as a background, unless it is light gray or
    black; otherwise foreground and background; conceal for equal
    colours. *)
Definition colorParams (fore back : Z) : list Z :=
  (0 ::
   (if back =? BLACK then
      if fore =? LTGRAY then []
      else if fore =? WHITE then [1]
      else if fore =? DKGRAY then [37; 90]
      else channelParams 30 fore
    else if back =? WHITE then
      7 :: (if (fore =? LTGRAY) || (fore =? BLACK) then []
            else channelParams 40 fore)
    else channelParams 30 fore ++ channelParams 40 back) ++
   (if fore =? back then [8] else []))%list.

Fixpoint listZ_eqb (l1 l2 : list Z) : bool :=
  match l1, l2 with
  | [], [] => true
  | a :: l1, b :: l2 => (a =? b) && listZ_eqb l1 l2
  | _, _ => false
  end.

(** The attribute words 0 .. 255. *)
Definition colorWords : list Z := map Z.of_nat (seq 0 256).

(** Every bright code (90 and above) in a parameter list comes right
    after the code 60 below it, or, for 90, after 37; [prev] is the
    parameter before the list. *)
Fixpoint brightFollowsBase (prev : option Z) (ps : list Z) : bool :=
  match ps with
  | [] => true
  | p :: ps' =>
      (if 90 <=? p then
         match prev with
         | Some q => (q =? p - 60) || ((p =? 90) && (q =? 37))
         | None => false
         end
       else true) && brightFollowsBase (Some p) ps'
  end.

(** The colours 0 .. 15 of one channel. *)
Definition palette : list Z := map Z.of_nat (seq 0 16).

(** Colour pairs with the same parameters have the same background and
    the same foreground, or are black and light gray on white. *)
Definition sameParamsSameColors (f1 b1 f2 b2 : Z) : bool :=
  implb (listZ_eqb (colorParams f1 b1) (colorParams f2 b2))
        ((b1 =? b2) &&
         ((f1 =? f2) ||
          ((b1 =? WHITE) && ((f1 =? BLACK) || (f1 =? LTGRAY))
                         && ((f2 =? BLACK) || (f2 =? LTGRAY))))).

(** The box-drawing table of [sendLine] (the [switch] at lines 264-271)
    and a cell with the table applied to its code unit. *)
Definition boxDrawing (ch : Z) : Z :=
  match ch with
  | 1 => 0x2554
  | 2 => 0x2557
  | 3 => 0x255A
  | 4 => 0x255D
  | 5 => 0x2551
  | 6 => 0x2550
  | _ => ch
  end.

Definition withBoxDrawing (cell : CHAR_INFO) : CHAR_INFO :=
  mkCHAR_INFO (boxDrawing (UnicodeChar cell)) (Attributes cell).

(** The remembered colour is the unset value or an 8-bit colour word. *)
Definition colorKnown (t : Terminal) : Prop :=
  m_remoteColor t = -1 \/ 0 <= m_remoteColor t < 256.

(** A blank cell in the default colours. *)
Definition cellBlank : CHAR_INFO := mkCHAR_INFO 32 0x07.

(** Every bright code (90 and above) in a parameter list comes right
    after its own base code, the code 60 below it; for dark gray on black
    ([dkgrayOnBlack]) the bright code is 90 and comes right after 37.
    [prev] is the parameter before the list. *)
Fixpoint brightFollowsOwnBase (dkgrayOnBlack : bool) (prev : option Z)
    (ps : list Z) : bool :=
  match ps with
  | [] => true
  | p :: ps' =>
      (if 90 <=? p then
         match prev with
         | Some q => if dkgrayOnBlack then (p =? 90) && (q =? 37) else q =? p - 60
         | None => false
         end
       else true) && brightFollowsOwnBase dkgrayOnBlack (Some p) ps'
  end.

(** * Properties *)

(** ** Byte-string lemmas *)

Module BytesFacts.
Import Bytes.

Lemma append_nil_r (s : string) : s ++ "" = s.
Proof. induction s as [|a s IH]; simpl; [reflexivity | now rewrite IH]. Qed.

Lemma append_assoc (s1 s2 s3 : string) : (s1 ++ s2) ++ s3 = s1 ++ (s2 ++ s3).
Proof. induction s1 as [|a s1 IH]; simpl; [reflexivity | now rewrite IH]. Qed.

Lemma length_append (s1 s2 : string) :
  String.length (s1 ++ s2) = (String.length s1 + String.length s2)%nat.
Proof. induction s1 as [|a s1 IH]; simpl; [reflexivity | now rewrite IH]. Qed.

Lemma take_0 (s : string) : take 0 s = "".
Proof. destruct s; reflexivity. Qed.

Lemma take_cons (n : nat) (a : ascii) (s : string) :
  take (S n) (String a s) = String a (take n s).
Proof. reflexivity. Qed.

(** Taking at least the whole first part keeps it and takes the rest from
    the second part. *)
Lemma take_append_ge (s1 s2 : string) (k : nat) :
  take (String.length s1 + k) (s1 ++ s2) = s1 ++ take k s2.
Proof.
  induction s1 as [|a s1 IH]; simpl.
  - reflexivity.
  - rewrite take_cons. now rewrite IH.
Qed.

Lemma take_append_exact (s1 s2 : string) : take (String.length s1) (s1 ++ s2) = s1.
Proof.
  rewrite <- (Nat.add_0_r (String.length s1)), take_append_ge, take_0.
  apply append_nil_r.
Qed.

Lemma take_all (s : string) : take (String.length s) s = s.
Proof. rewrite <- (append_nil_r s) at 2. apply take_append_exact. Qed.

Lemma spaces_snoc (n : nat) : spaces n ++ " " = spaces (S n).
Proof. induction n as [|n IH]; simpl; [reflexivity | now rewrite IH]. Qed.

Lemma flatten_app (l1 l2 : list string) :
  flatten (l1 ++ l2) = flatten l1 ++ flatten l2.
Proof.
  unfold flatten.
  induction l1 as [|x l1 IH]; cbn [fold_right app append]; [reflexivity|].
  now rewrite IH, append_assoc.
Qed.

Lemma flatten_snoc (l : list string) (x : string) :
  flatten (l ++ [x]) = flatten l ++ x.
Proof.
  rewrite flatten_app. unfold flatten at 2. cbn [fold_right].
  now rewrite append_nil_r.
Qed.

End BytesFacts.

(** ** The cursor and position tracker *)

Section CursorTracker.

(** The row loop issues one CR+LF write per row (none in console mode) and
    stops on the target row: its fuel is enough. *)
Lemma moveTerminalToLine_loop_spec (fuel : nat) :
  forall (line : Z) (t : Terminal),
    line - m_remoteLine t = Z.of_nat fuel ->
    moveTerminalToLine_loop fuel line t =
    mkTerminal
      (m_output t ++ (if m_consoleMode t then [] else repeat CRLF fuel))%list
      line (m_cursorHidden t) (m_cursorPos t) (m_remoteColor t)
      (m_consoleMode t) (m_termLine t).
Proof.
  induction fuel as [|fuel IH]; intros line [o rl ch cp rc cm tl] Hd;
    cbn [m_output m_remoteLine m_cursorHidden m_cursorPos m_remoteColor
         m_consoleMode m_termLine] in *.
  - cbn [moveTerminalToLine_loop].
    replace line with rl by lia.
    destruct cm; cbn [repeat]; now rewrite app_nil_r.
  - cbn [moveTerminalToLine_loop m_remoteLine].
    replace (line >? rl) with true by (symmetry; apply Z.gtb_lt; lia).
    rewrite IH.
    + destruct cm; cbn; [reflexivity|].
      now rewrite <- app_assoc.
    + destruct cm; cbn; lia.
Qed.

Lemma moveTerminalToLine_remoteLine (line : Z) (t : Terminal) :
  m_remoteLine (moveTerminalToLine line t) = line.
Proof.
  unfold moveTerminalToLine.
  destruct (line <? m_remoteLine t) eqn:Hlt; [reflexivity|].
  destruct (line >? m_remoteLine t) eqn:Hgt.
  - rewrite moveTerminalToLine_loop_spec; [reflexivity|].
    apply Z.gtb_lt in Hgt. lia.
  - apply Z.ltb_ge in Hlt. cbn.
    destruct (Z.gtb_spec line (m_remoteLine t)); [discriminate | lia].
Qed.

(** C9 (as stated, refuted): in console mode a move from row 5 up to row 2
    writes nothing, not a cursor-up-3 fragment, and a move from row 2 down
    to row 5 writes nothing, not three CR+LF pairs. *)
Lemma moveTerminalToLine_console_silent :
  m_output (moveTerminalToLine 2 (set_remoteLine 5 (setConsoleMode 1 Terminal_new))) = [] /\
  m_output (moveTerminalToLine 2 (set_remoteLine 5 (setConsoleMode 1 Terminal_new)))
    <> [CR ++ CSI ++ "3A"] /\
  m_output (moveTerminalToLine 5 (set_remoteLine 2 (setConsoleMode 1 Terminal_new))) = [] /\
  m_output (moveTerminalToLine 5 (set_remoteLine 2 (setConsoleMode 1 Terminal_new)))
    <> [CRLF; CRLF; CRLF].
Proof. repeat split; try reflexivity; discriminate. Qed.

(** C9 (amended): [moveTerminalToLine] always ends with the believed row on
    the target.  With console mode off, a target below the believed row
    gives one write holding a carriage return and one cursor-up-N fragment
    (N the believed row minus the target), a target above it gives one
    CR+LF write per row of difference, and the believed row itself gives a
    bare carriage return.  With console mode on, a move to another row
    writes nothing. *)
Theorem moveTerminalToLine_emits (line : Z) (t : Terminal) :
  m_remoteLine (moveTerminalToLine line t) = line /\
  (m_consoleMode t = false -> line < m_remoteLine t ->
     m_output (moveTerminalToLine line t) =
     (m_output t ++ [(CR ++ CSI ++ sprintf_d (m_remoteLine t - line) ++ "A")%string])%list) /\
  (m_consoleMode t = false -> line > m_remoteLine t ->
     m_output (moveTerminalToLine line t) =
     (m_output t ++ repeat CRLF (Z.to_nat (line - m_remoteLine t)))%list) /\
  (m_consoleMode t = false -> line = m_remoteLine t ->
     m_output (moveTerminalToLine line t) = (m_output t ++ [CR])%list) /\
  (m_consoleMode t = true -> line <> m_remoteLine t ->
     m_output (moveTerminalToLine line t) = m_output t).
Proof.
  split; [apply moveTerminalToLine_remoteLine|].
  unfold moveTerminalToLine.
  destruct (Z.ltb_spec line (m_remoteLine t)) as [Hlt|Hge].
  - unfold writeUnlessConsole. repeat split; intros Hm H; try lia.
    + rewrite Hm. reflexivity.
    + rewrite Hm. reflexivity.
  - destruct (Z.gtb_spec line (m_remoteLine t)) as [Hgt|Hle].
    + rewrite moveTerminalToLine_loop_spec by lia.
      repeat split; intros Hm H; try lia; cbn [m_output]; rewrite Hm.
      * reflexivity.
      * apply app_nil_r.
    + repeat split; intros Hm H; first [reflexivity | lia].
Qed.

(** The three moves of the specification, console mode off: row 5 to row 2,
    row 2 to row 5, row 3 to row 3. *)
Lemma moveTerminalToLine_emits_witness :
  m_output (moveTerminalToLine 2 (set_remoteLine 5 Terminal_new)) = [CR ++ CSI ++ "3A"] /\
  m_output (moveTerminalToLine 5 (set_remoteLine 2 Terminal_new)) = [CRLF; CRLF; CRLF] /\
  m_output (moveTerminalToLine 3 (set_remoteLine 3 Terminal_new)) = [CR] /\
  m_output (moveTerminalToLine 2 (set_remoteLine 5 (setConsoleMode 1 Terminal_new))) = [].
Proof.
  split; [|split; [|split]].
  - exact (proj1 (proj2 (moveTerminalToLine_emits 2 (set_remoteLine 5 Terminal_new)))
             eq_refl eq_refl).
  - exact (proj1 (proj2 (proj2 (moveTerminalToLine_emits 5 (set_remoteLine 2 Terminal_new))))
             eq_refl eq_refl).
  - exact (proj1 (proj2 (proj2 (proj2
             (moveTerminalToLine_emits 3 (set_remoteLine 3 Terminal_new)))))
             eq_refl eq_refl).
  - refine (proj2 (proj2 (proj2 (proj2
             (moveTerminalToLine_emits 2 (set_remoteLine 5 (setConsoleMode 1 Terminal_new))))))
             eq_refl _).
    cbn. discriminate.
Defined.

(** After [finishOutput] the cursor is shown and the stored position is the
    requested one. *)
Lemma finishOutput_state (p : Z * Z) (t : Terminal) :
  m_cursorHidden (finishOutput p t) = false /\ m_cursorPos (finishOutput p t) = p.
Proof.
  unfold finishOutput. split; [|reflexivity].
  cbn [m_cursorHidden set_cursorPos].
  match goal with |- context [if m_cursorHidden ?u then _ else _] =>
    destruct (m_cursorHidden u) eqn:Hh end.
  - reflexivity.
  - exact Hh.
Qed.

(** C6: [finishOutput] called again with the same coordinates changes
    nothing, so it writes nothing (after a reset or not), and every call
    stores the requested coordinates in [m_cursorPos] and leaves the cursor
    shown. *)
Theorem finishOutput_idempotent (p : Z * Z) (t : Terminal) :
  finishOutput p (finishOutput p t) = finishOutput p t /\
  m_output (finishOutput p (finishOutput p t)) = m_output (finishOutput p t) /\
  m_cursorPos (finishOutput p t) = p.
Proof.
  destruct (finishOutput_state p t) as [Hh Hp].
  assert (H : finishOutput p (finishOutput p t) = finishOutput p t).
  { destruct (finishOutput p t) as [o rl ch cp rc cm tl].
    cbn in Hh, Hp. subst ch cp.
    unfold finishOutput. cbn [m_cursorPos m_cursorHidden].
    rewrite !Z.eqb_refl. reflexivity. }
  rewrite H. auto.
Qed.

End CursorTracker.

(** ** The colour mapper *)

Section ColorMapper.
Import BytesFacts.

Lemma outUInt_append (out : string) (n : Z) : outUInt out n = out ++ outUInt "" n.
Proof. reflexivity. Qed.

(** The parameters are appended to [out], whatever it holds. *)
Lemma outputSetColorSgrParams_append (out : string) (isFore : bool) (color : Z) :
  outputSetColorSgrParams out isFore color = out ++ outputSetColorSgrParams "" isFore color.
Proof.
  unfold outputSetColorSgrParams.
  destruct (flagSet color FLAG_BRIGHT).
  - rewrite (outUInt_append (outUInt _ _ ++ ";")), (outUInt_append (out ++ ";")).
    rewrite (outUInt_append (outUInt ("" ++ ";") _ ++ ";")), (outUInt_append ("" ++ ";")).
    now rewrite !append_assoc.
  - rewrite (outUInt_append (out ++ ";")), (outUInt_append ("" ++ ";")).
    now rewrite !append_assoc.
Qed.

Lemma color_cases (color : Z) :
  0 <= color < 16 ->
  In color [0; 1; 2; 3; 4; 5; 6; 7; 8; 9; 10; 11; 12; 13; 14; 15].
Proof. intros H. cbn [In]. lia. Qed.

(** One channel through [outputSetColorSgrParams]: for a palette colour
    (0 .. 15) it appends, when the bright bit is set, the non-bright code
    (3X or 4X) and right after it the bright code (9X or 10X) of the same
    colour X; without the bright bit it appends the non-bright code
    only. *)
Theorem outputSetColorSgrParams_bright_pair (out : string) (isFore : bool) (color : Z) :
  0 <= color < 16 ->
  outputSetColorSgrParams out isFore color =
  if flagSet color FLAG_BRIGHT then
    out ++ ";" ++ (if isFore then "3" else "4") ++ String (digitChar (color - 8)) ""
        ++ ";" ++ (if isFore then "9" else "10") ++ String (digitChar (color - 8)) ""
  else
    out ++ ";" ++ (if isFore then "3" else "4") ++ String (digitChar color) "".
Proof.
  intros Hc. rewrite outputSetColorSgrParams_append.
  apply color_cases in Hc. cbn [In] in Hc.
  repeat (destruct Hc as [<-|Hc]; [destruct isFore; reflexivity|]).
  contradiction.
Qed.

(** Bright red as a foreground and as a background, and plain red. *)
Lemma outputSetColorSgrParams_bright_pair_witness :
  outputSetColorSgrParams "" true 9 = ";31;91" /\
  outputSetColorSgrParams "" false 9 = ";41;101" /\
  outputSetColorSgrParams "" true 1 = ";31".
Proof.
  split; [|split].
  - apply (outputSetColorSgrParams_bright_pair "" true 9). lia.
  - apply (outputSetColorSgrParams_bright_pair "" false 9). lia.
  - apply (outputSetColorSgrParams_bright_pair "" true 1). lia.
Defined.

(** The colour fragment is appended to the row buffer, whatever it holds. *)
Lemma sendLine_color_append (termLine : string) (color : Z) :
  sendLine_color termLine color = termLine ++ sendLine_color "" color.
Proof.
  unfold sendLine_color.
  repeat match goal with
         | |- context [if ?b then _ else _] => destruct b
         end;
    repeat (rewrite (outputSetColorSgrParams_append (_ ++ _)) ||
            rewrite (outputSetColorSgrParams_append (outputSetColorSgrParams _ _ _)));
    now rewrite ?append_assoc.
Qed.

(** C7: on a black background (back = 0) the fragment is, for a light-gray
    foreground, the bare reset (no foreground parameter); for bright white,
    the reset with the bold parameter 1 and no colour code; for dark gray,
    the reset with 37 (light gray) and then 90; for any other foreground
    the reset followed by the explicit foreground parameters of
    [outputSetColorSgrParams] (and the conceal parameter when the
    foreground is black too). *)
Theorem sendLine_color_black_background (termLine : string) (color : Z) :
  sendLine_back color = BLACK ->
  (sendLine_fore color = LTGRAY ->
     sendLine_color termLine color = termLine ++ CSI ++ "0m") /\
  (sendLine_fore color = WHITE ->
     sendLine_color termLine color = termLine ++ CSI ++ "0;1m") /\
  (sendLine_fore color = DKGRAY ->
     sendLine_color termLine color = termLine ++ CSI ++ "0;37;90m") /\
  (sendLine_fore color <> LTGRAY -> sendLine_fore color <> WHITE ->
   sendLine_fore color <> DKGRAY ->
     sendLine_color termLine color =
     outputSetColorSgrParams (termLine ++ CSI ++ "0") true (sendLine_fore color)
       ++ (if sendLine_fore color =? BLACK then ";8" else "") ++ "m").
Proof.
  intros Hb. unfold sendLine_color. rewrite Hb.
  change (BLACK =? BLACK) with true. cbv iota.
  repeat split.
  1-3: intros ->;
    repeat match goal with
           | |- context [?a =? ?b] =>
               let v := eval vm_compute in (a =? b) in change (a =? b) with v
           end;
    cbv iota; now rewrite !append_assoc.
  - intros H1 H2 H3.
    apply Z.eqb_neq in H1, H2, H3. rewrite H1, H2, H3.
    destruct (sendLine_fore color =? BLACK); now rewrite ?append_assoc.
Qed.

(** Light gray, bright white, dark gray, red and bright red on black. *)
Lemma sendLine_color_black_background_witness :
  sendLine_color "" 0x07 = CSI ++ "0m" /\
  sendLine_color "" 0x0F = CSI ++ "0;1m" /\
  sendLine_color "" 0x08 = CSI ++ "0;37;90m" /\
  sendLine_color "" 0x04 = CSI ++ "0;31m" /\
  sendLine_color "" 0x0C = CSI ++ "0;31;91m".
Proof.
  split; [|split; [|split; [|split]]].
  - exact (proj1 (sendLine_color_black_background "" 0x07 eq_refl) eq_refl).
  - exact (proj1 (proj2 (sendLine_color_black_background "" 0x0F eq_refl)) eq_refl).
  - exact (proj1 (proj2 (proj2 (sendLine_color_black_background "" 0x08 eq_refl))) eq_refl).
  - refine (proj2 (proj2 (proj2 (sendLine_color_black_background "" 0x04 eq_refl))) _ _ _);
      discriminate.
  - refine (proj2 (proj2 (proj2 (sendLine_color_black_background "" 0x0C eq_refl))) _ _ _);
      discriminate.
Defined.

End ColorMapper.

(** ** What the cursor operations leave alone *)

Section Frames.

Lemma writeUnlessConsole_output (s : string) (t : Terminal) :
  m_output (writeUnlessConsole s t) =
  (m_output t ++ (if m_consoleMode t then [] else [s]))%list.
Proof.
  unfold writeUnlessConsole. destruct (m_consoleMode t); cbn; [|reflexivity].
  now rewrite app_nil_r.
Qed.

(** [hideTerminalCursor] sets [m_cursorHidden] and nothing else of the
    belief. *)
Lemma hideTerminalCursor_belief (t : Terminal) :
  belief (hideTerminalCursor t) =
    (m_remoteLine t, true, m_cursorPos t, m_remoteColor t) /\
  m_consoleMode (hideTerminalCursor t) = m_consoleMode t /\
  m_termLine (hideTerminalCursor t) = m_termLine t.
Proof.
  unfold hideTerminalCursor, belief, writeUnlessConsole.
  destruct (m_cursorHidden t) eqn:Hh; [rewrite Hh; auto|].
  destruct (m_consoleMode t) eqn:Hm; cbn; auto.
Qed.

(** [moveTerminalToLine] sets [m_remoteLine] and nothing else of the
    belief. *)
Lemma moveTerminalToLine_belief (line : Z) (t : Terminal) :
  belief (moveTerminalToLine line t) =
    (line, m_cursorHidden t, m_cursorPos t, m_remoteColor t) /\
  m_consoleMode (moveTerminalToLine line t) = m_consoleMode t /\
  m_termLine (moveTerminalToLine line t) = m_termLine t.
Proof.
  unfold moveTerminalToLine, belief, writeUnlessConsole.
  destruct (Z.ltb_spec line (m_remoteLine t)) as [Hlt|Hge].
  - destruct (m_consoleMode t) eqn:Hm; cbn; auto.
  - destruct (Z.gtb_spec line (m_remoteLine t)) as [Hgt|Hle].
    + rewrite moveTerminalToLine_loop_spec by lia. cbn. auto.
    + cbn. repeat split. f_equal. f_equal. f_equal. lia.
Qed.

End Frames.

(** ** The line renderer *)

Section LineRenderer.
Import Bytes BytesFacts.

Variable enc : Z -> string.

Lemma isSingleSpace_true (mbstr : string) : isSingleSpace mbstr = true -> mbstr = " ".
Proof.
  unfold isSingleSpace. intros H. apply andb_true_iff in H as [Hl Hc].
  apply Z.eqb_eq in Hl.
  destruct mbstr as [|a [|b s]]; cbn [String.length] in Hl; try lia.
  cbn in Hc. apply Ascii.eqb_eq in Hc. now subst a.
Qed.

(** One loop iteration, in closed form: the buffer grows by the cell's
    colour fragment and by its encoded bytes, [m_remoteColor] becomes the
    cell's colour, and [length] moves to the end of the buffer after a
    fragment and after bytes other than a single space. *)
Lemma sendLine_cell_eq (t : Terminal) (length : nat) (cell : CHAR_INFO) :
  sendLine_cell enc (t, length) cell =
  (mkTerminal (m_output t) (m_remoteLine t) (m_cursorHidden t) (m_cursorPos t)
              (cellColor cell) (m_consoleMode t)
              (m_termLine t ++ cellFragment t cell ++ cellText enc cell),
   if cellTrailing cell || isSingleSpace (sendLine_glyph enc cell)
   then (if cellChanged t cell
         then String.length (m_termLine t ++ cellFragment t cell) else length)
   else String.length (m_termLine t ++ cellFragment t cell ++ cellText enc cell)).
Proof.
  destruct t as [o rl ch cp rc cm tl].
  unfold sendLine_cell, cellFragment, cellText, cellChanged.
  fold (cellColor cell). fold (cellTrailing cell).
  cbn [fst snd m_remoteColor m_consoleMode].
  destruct (negb (cellColor cell =? rc) && negb cm); destruct (cellTrailing cell);
    cbn [orb set_termLine set_remoteColor m_output m_remoteLine m_cursorHidden
         m_cursorPos m_remoteColor m_consoleMode m_termLine];
    rewrite ?(sendLine_color_append tl), ?append_nil_r;
    try reflexivity;
    destruct (isSingleSpace (sendLine_glyph enc cell)) eqn:Hs;
    try (apply isSingleSpace_true in Hs; rewrite Hs);
    cbn [append]; rewrite ?append_assoc; reflexivity.
Qed.

(** The loop touches [m_termLine] and [m_remoteColor] only. *)
Lemma cells_loop_frame (cells : list CHAR_INFO) :
  forall st : Terminal * nat,
    m_output (fst (cells_loop enc cells st)) = m_output (fst st) /\
    m_remoteLine (fst (cells_loop enc cells st)) = m_remoteLine (fst st) /\
    m_cursorHidden (fst (cells_loop enc cells st)) = m_cursorHidden (fst st) /\
    m_cursorPos (fst (cells_loop enc cells st)) = m_cursorPos (fst st) /\
    m_consoleMode (fst (cells_loop enc cells st)) = m_consoleMode (fst st).
Proof.
  induction cells as [|c cells IH]; intros [t len]; cbn [cells_loop fold_left].
  - auto.
  - fold (cells_loop enc cells). rewrite sendLine_cell_eq.
    destruct (IH (mkTerminal (m_output t) (m_remoteLine t) (m_cursorHidden t)
                    (m_cursorPos t) (cellColor c) (m_consoleMode t)
                    (m_termLine t ++ cellFragment t c ++ cellText enc c),
                  if cellTrailing c || isSingleSpace (sendLine_glyph enc c)
                  then (if cellChanged t c
                        then String.length (m_termLine t ++ cellFragment t c) else len)
                  else String.length (m_termLine t ++ cellFragment t c ++ cellText enc c)))
      as (H1 & H2 & H3 & H4 & H5).
    cbn [fst m_output m_remoteLine m_cursorHidden m_cursorPos m_consoleMode] in *.
    auto.
Qed.

Lemma last_cons {A : Type} (l : list A) :
  forall a d : A, last (a :: l) d = last l a.
Proof.
  induction l as [|b l IH]; intros a d; [reflexivity|].
  change (last (a :: b :: l) d) with (last (b :: l) d).
  now rewrite !IH.
Qed.

(** After the loop [m_remoteColor] is the colour of the last cell. *)
Lemma cells_loop_remoteColor (cells : list CHAR_INFO) :
  forall (c : CHAR_INFO) (st : Terminal * nat),
    m_remoteColor (fst (cells_loop enc (c :: cells) st)) = cellColor (last cells c).
Proof.
  induction cells as [|c' cells IH]; intros c [t len].
  - cbn [cells_loop fold_left last]. now rewrite sendLine_cell_eq.
  - change (cells_loop enc (c :: c' :: cells) (t, len))
      with (cells_loop enc (c' :: cells) (sendLine_cell enc (t, len) c)).
    rewrite IH. now rewrite last_cons.
Qed.

(** The buffer only grows and [length] never moves back. *)
Lemma sendLine_cell_grows (t : Terminal) (len : nat) (cell : CHAR_INFO) :
  (len <= String.length (m_termLine t))%nat ->
  m_termLine (fst (sendLine_cell enc (t, len) cell)) =
    m_termLine t ++ cellFragment t cell ++ cellText enc cell /\
  (len <= snd (sendLine_cell enc (t, len) cell))%nat /\
  (String.length (m_termLine t ++ cellFragment t cell)
     <= snd (sendLine_cell enc (t, len) cell) \/ cellFragment t cell = "")%nat /\
  (snd (sendLine_cell enc (t, len) cell)
     <= String.length (m_termLine (fst (sendLine_cell enc (t, len) cell))))%nat.
Proof.
  intros Hlen. rewrite sendLine_cell_eq. cbn [fst snd m_termLine].
  split; [reflexivity|].
  unfold cellFragment.
  destruct (cellTrailing cell || isSingleSpace (sendLine_glyph enc cell));
    destruct (cellChanged t cell);
    rewrite ?length_append in *; repeat split; auto; lia.
Qed.

Lemma cells_loop_grows (cells : list CHAR_INFO) :
  forall st : Terminal * nat,
    (snd st <= String.length (m_termLine (fst st)))%nat ->
    (exists tail, m_termLine (fst (cells_loop enc cells st)) = m_termLine (fst st) ++ tail) /\
    (snd st <= snd (cells_loop enc cells st))%nat.
Proof.
  induction cells as [|c cells IH]; intros [t len] Hlen; cbn [fst snd] in *.
  - split; [exists ""; now rewrite append_nil_r | cbn; lia].
  - change (cells_loop enc (c :: cells) (t, len))
      with (cells_loop enc cells (sendLine_cell enc (t, len) c)).
    destruct (sendLine_cell_grows t len c Hlen) as (Hb & Hl & _ & Hle).
    destruct (IH _ Hle) as ((tail & Ht) & Hm).
    split; [|lia].
    exists ((cellFragment t c ++ cellText enc c) ++ tail).
    now rewrite Ht, Hb, !append_assoc.
Qed.

(** Dropping the trailing single spaces, one more piece at a time. *)
Lemma dropTrailingBlanks_snoc (pieces : list string) (piece : string) :
  dropTrailingBlanks (pieces ++ [piece]) =
  if (piece =? " ")%string then dropTrailingBlanks pieces else (pieces ++ [piece])%list.
Proof.
  unfold dropTrailingBlanks. rewrite rev_unit. cbn [dropLeadingBlanks].
  destruct (piece =? " ")%string; [reflexivity|].
  cbn [rev]. now rewrite rev_involutive.
Qed.

(** What [dropTrailingBlanks] drops is space bytes and nothing else. *)
Lemma dropTrailingBlanks_spaces (pieces : list string) :
  exists n : nat, flatten pieces = flatten (dropTrailingBlanks pieces) ++ spaces n.
Proof.
  induction pieces as [|piece pieces (n & IH)] using rev_ind.
  - exists 0%nat. reflexivity.
  - rewrite dropTrailingBlanks_snoc.
    destruct (String.eqb_spec piece " ") as [->|_].
    + exists (S n). now rewrite flatten_snoc, IH, append_assoc, spaces_snoc.
    + exists 0%nat. cbn [spaces]. now rewrite append_nil_r.
Qed.

(** A colour fragment starts with ESC; it is not a single space. *)
Lemma sendLine_color_head (color : Z) :
  exists rest : string, sendLine_color "" color = String "027" rest.
Proof.
  unfold sendLine_color.
  repeat match goal with
         | |- context [if ?b then _ else _] => destruct b
         end;
    repeat (rewrite (outputSetColorSgrParams_append (_ ++ _)) ||
            rewrite (outputSetColorSgrParams_append (outputSetColorSgrParams _ _ _)));
    rewrite ?append_assoc; cbn [append CSI]; eexists; reflexivity.
Qed.

Lemma sendLine_color_not_blank (color : Z) :
  (sendLine_color "" color =? " ")%string = false.
Proof.
  destruct (sendLine_color_head color) as (rest & ->). reflexivity.
Qed.

Lemma isSingleSpace_false (mbstr : string) :
  isSingleSpace mbstr = false -> (mbstr =? " ")%string = false.
Proof.
  intros H. destruct (String.eqb_spec mbstr " ") as [->|_]; [|reflexivity].
  discriminate H.
Qed.

(** The loop appends the cells' emissions to the buffer and keeps [length]
    at the end of the last emission that is not a single space. *)
Lemma cells_loop_emissions (cells : list CHAR_INFO) :
  forall (t : Terminal) (len : nat) (pieces : list string),
    m_termLine t = flatten pieces ->
    len = String.length (flatten (dropTrailingBlanks pieces)) ->
    m_termLine (fst (cells_loop enc cells (t, len))) =
      flatten (pieces ++ rowEmissions enc (m_remoteColor t) (m_consoleMode t) cells) /\
    snd (cells_loop enc cells (t, len)) =
      String.length
        (flatten (dropTrailingBlanks
           (pieces ++ rowEmissions enc (m_remoteColor t) (m_consoleMode t) cells))).
Proof.
  induction cells as [|c cells IH]; intros t len pieces Hbuf Hlen.
  - cbn [cells_loop fold_left rowEmissions fst snd]. rewrite app_nil_r. auto.
  - change (cells_loop enc (c :: cells) (t, len))
      with (cells_loop enc cells (sendLine_cell enc (t, len) c)).
    rewrite sendLine_cell_eq. cbn [rowEmissions]. fold (cellChanged t c).
    rewrite !app_assoc.
    match goal with
    | |- context [cells_loop enc cells (?u, ?l)] =>
        specialize (IH u l ((pieces ++ (if cellChanged t c
                                        then [sendLine_color "" (cellColor c)] else [])) ++
                            (if cellTrailing c then [] else [sendLine_glyph enc c]))%list)
    end.
    cbn [m_termLine m_remoteColor m_consoleMode] in IH.
    apply IH; clear IH; unfold cellFragment, cellText.
    + destruct (cellChanged t c), (cellTrailing c);
        rewrite ?app_nil_r, ?flatten_snoc, ?append_nil_r, Hbuf; cbn [append];
        rewrite ?append_nil_r, ?append_assoc; reflexivity.
    + destruct (cellChanged t c), (cellTrailing c); cbn [orb append];
        rewrite ?app_nil_r, ?append_nil_r;
        try destruct (isSingleSpace (sendLine_glyph enc c)) eqn:Hs;
        rewrite ?dropTrailingBlanks_snoc;
        try (rewrite (isSingleSpace_true _ Hs), ?String.eqb_refl);
        try rewrite (isSingleSpace_false _ Hs);
        rewrite ?dropTrailingBlanks_snoc, ?sendLine_color_not_blank,
                ?flatten_snoc, ?Hbuf, ?append_assoc;
        try reflexivity; try assumption.
Qed.

Lemma sendLine_unfold (line : Z) (lineData : list CHAR_INFO) (width : Z) (t : Terminal) :
  sendLine enc line lineData width t =
  write (take (snd (cells_loop enc (firstn (Z.to_nat width) lineData)
                      (sendLine_prepared line t, 0%nat)))
              (m_termLine (fst (cells_loop enc (firstn (Z.to_nat width) lineData)
                                  (sendLine_prepared line t, 0%nat)))))
        (fst (cells_loop enc (firstn (Z.to_nat width) lineData)
                (sendLine_prepared line t, 0%nat))).
Proof. reflexivity. Qed.

Lemma sendLine_prepared_facts (line : Z) (t : Terminal) :
  m_remoteColor (sendLine_prepared line t) = m_remoteColor t /\
  m_consoleMode (sendLine_prepared line t) = m_consoleMode t /\
  m_termLine (sendLine_prepared line t) = "" /\
  m_output (sendLine_prepared line t) =
    (m_output (moveTerminalToLine line (hideTerminalCursor t)) ++
     (if m_consoleMode t then [] else [(CSI ++ "2K")%string]))%list.
Proof.
  destruct (hideTerminalCursor_belief t) as (Hb1 & Hm1 & _).
  destruct (moveTerminalToLine_belief line (hideTerminalCursor t)) as (Hb2 & Hm2 & _).
  unfold belief in Hb1, Hb2.
  injection Hb1 as _ _ _ Hc1. injection Hb2 as _ _ _ Hc2.
  unfold sendLine_prepared.
  change (m_output (set_termLine "" ?u)) with (m_output u).
  rewrite writeUnlessConsole_output, Hm2, Hm1.
  unfold writeUnlessConsole. rewrite Hm2, Hm1.
  destruct (m_consoleMode t); cbn; rewrite ?Hc2, ?Hc1, ?Hm2, ?Hm1; auto.
Qed.

(** C2 (amended): after the writes of [hideTerminalCursor] and
    [moveTerminalToLine], [sendLine] issues the erase-line fragment as a
    write of its own (no such write in console mode) and then exactly one
    write for the row content: two writes with console mode off, one with
    console mode on. *)
Theorem sendLine_writes (line : Z) (lineData : list CHAR_INFO) (width : Z) (t : Terminal) :
  exists content : string,
    m_output (sendLine enc line lineData width t) =
    (m_output (moveTerminalToLine line (hideTerminalCursor t)) ++
     (if m_consoleMode t then [] else [(CSI ++ "2K")%string]) ++ [content])%list /\
    List.length (m_output (sendLine enc line lineData width t)) =
    (List.length (m_output (moveTerminalToLine line (hideTerminalCursor t))) +
     (if m_consoleMode t then 1 else 2))%nat.
Proof.
  rewrite sendLine_unfold.
  destruct (cells_loop_frame (firstn (Z.to_nat width) lineData)
              (sendLine_prepared line t, 0%nat)) as (Ho & _).
  destruct (sendLine_prepared_facts line t) as (_ & _ & _ & Hp).
  cbn [fst] in Ho. eexists. cbn [write m_output].
  rewrite Ho, Hp, <- app_assoc. split; [reflexivity|].
  rewrite !length_app. destruct (m_consoleMode t); cbn; lia.
Qed.

(** C3 (amended): the row buffer holds the emissions of the row's cells,
    and the last write of [sendLine] is the buffer up to the end of the
    last emission that is not a single space, a colour fragment counting as
    an emission: what is left out is space bytes only, and a colour
    fragment is transmitted even when only blank cells follow it. *)
Theorem sendLine_significant_prefix (line : Z) (lineData : list CHAR_INFO) (width : Z)
    (t : Terminal) :
  m_termLine (sendLine enc line lineData width t) =
    flatten (rowEmissions enc (m_remoteColor t) (m_consoleMode t)
               (firstn (Z.to_nat width) lineData)) /\
  m_output (sendLine enc line lineData width t) =
    (m_output (sendLine_prepared line t) ++
     [flatten (dropTrailingBlanks
                 (rowEmissions enc (m_remoteColor t) (m_consoleMode t)
                    (firstn (Z.to_nat width) lineData)))])%list /\
  exists n : nat,
    m_termLine (sendLine enc line lineData width t) =
    flatten (dropTrailingBlanks
               (rowEmissions enc (m_remoteColor t) (m_consoleMode t)
                  (firstn (Z.to_nat width) lineData))) ++ spaces n.
Proof.
  rewrite sendLine_unfold.
  destruct (cells_loop_frame (firstn (Z.to_nat width) lineData)
              (sendLine_prepared line t, 0%nat)) as (Ho & _).
  destruct (sendLine_prepared_facts line t) as (Hrc & Hcm & Htl & _).
  destruct (cells_loop_emissions (firstn (Z.to_nat width) lineData)
              (sendLine_prepared line t) 0 [] Htl eq_refl) as (Hbuf & Hlen).
  rewrite Hrc, Hcm in Hbuf, Hlen. cbn [app] in Hbuf, Hlen. cbn [fst] in Ho.
  cbn [write m_output m_termLine].
  destruct (dropTrailingBlanks_spaces
              (rowEmissions enc (m_remoteColor t) (m_consoleMode t)
                 (firstn (Z.to_nat width) lineData))) as (n & Hn).
  rewrite Ho, Hlen, Hbuf.
  split; [reflexivity|]. split.
  - rewrite Hn. now rewrite take_append_exact.
  - exists n. exact Hn.
Qed.

(** The row content opens with the first cell's colour fragment, if there
    is one for the state the call starts in; a prefix of the first cell's
    bytes and of the rest of the row follows. *)
Lemma sendLine_content_opens (line : Z) (lineData : list CHAR_INFO) (width : Z)
    (t : Terminal) (c : CHAR_INFO) (rest : list CHAR_INFO) :
  firstn (Z.to_nat width) lineData = c :: rest ->
  exists (n : nat) (tail : string),
    m_output (sendLine enc line lineData width t) =
      (m_output (sendLine_prepared line t) ++
       [(cellFragment t c ++ take n (cellText enc c ++ tail))%string])%list.
Proof.
  intros Hcells. rewrite sendLine_unfold, Hcells.
  destruct (cells_loop_frame (c :: rest) (sendLine_prepared line t, 0%nat)) as (Ho & _).
  cbn [fst] in Ho.
  destruct (sendLine_prepared_facts line t) as (Hrc & Hcm & Htl & _).
  assert (Hfrag : cellFragment (sendLine_prepared line t) c = cellFragment t c).
  { unfold cellFragment, cellChanged. now rewrite Hrc, Hcm. }
  change (cells_loop enc (c :: rest) (sendLine_prepared line t, 0%nat))
    with (cells_loop enc rest (sendLine_cell enc (sendLine_prepared line t, 0%nat) c)) in *.
  destruct (sendLine_cell_grows (sendLine_prepared line t) 0 c (Nat.le_0_l _))
    as (Hb & _ & Hfl & Hle).
  rewrite Htl, Hfrag in Hb, Hfl. cbn [append] in Hb, Hfl.
  destruct (cells_loop_grows rest _ Hle) as ((tail & Ht) & Hm).
  rewrite Hb in Ht.
  set (final := cells_loop enc rest (sendLine_cell enc (sendLine_prepared line t, 0%nat) c)) in *.
  assert (Hk : exists k, snd final = (String.length (cellFragment t c) + k)%nat).
  { destruct Hfl as [Hfl | Hfl].
    - exists (snd final - String.length (cellFragment t c))%nat. lia.
    - exists (snd final). now rewrite Hfl. }
  destruct Hk as (k & Hk).
  exists k, tail. cbn [write m_output].
  rewrite Ho, Ht, Hk, !append_assoc, take_append_ge. reflexivity.
Qed.

(** [sendLine] ends with [m_remoteColor] on the colour of the row's last
    cell and leaves the mode switch alone. *)
Lemma sendLine_remoteColor (line : Z) (lineData : list CHAR_INFO) (width : Z)
    (t : Terminal) (c : CHAR_INFO) (rest : list CHAR_INFO) :
  firstn (Z.to_nat width) lineData = c :: rest ->
  m_remoteColor (sendLine enc line lineData width t) = cellColor (last rest c) /\
  m_consoleMode (sendLine enc line lineData width t) = m_consoleMode t.
Proof.
  intros Hcells. rewrite sendLine_unfold, Hcells.
  change (m_remoteColor (write ?s ?u)) with (m_remoteColor u).
  change (m_consoleMode (write ?s ?u)) with (m_consoleMode u).
  destruct (cells_loop_frame (c :: rest) (sendLine_prepared line t, 0%nat))
    as (_ & _ & _ & _ & Hcm).
  destruct (sendLine_prepared_facts line t) as (_ & Hcm' & _).
  rewrite Hcm. cbn [fst]. split; [apply cells_loop_remoteColor | exact Hcm'].
Qed.

(** C1 (amended): [m_remoteColor] is carried from one [sendLine] call to
    the next.  The row content written by [sendLine] opens with the colour
    fragment of the first cell exactly when that cell's colour differs from
    the [m_remoteColor] the call starts with (and console mode is off);
    what follows is a prefix of the first cell's bytes and the rest of the
    row.  The call ends with [m_remoteColor] on the colour of the last cell
    of the row.  So when the same row is rendered a second time, its
    content opens with the first cell's colour fragment exactly when the
    first and the last cell of the row differ in colour (and console mode
    is off). *)
Theorem sendLine_first_cell_color (line : Z) (lineData : list CHAR_INFO) (width : Z)
    (t : Terminal) (c : CHAR_INFO) (rest : list CHAR_INFO) :
  firstn (Z.to_nat width) lineData = c :: rest ->
  (exists (n : nat) (tail : string),
     m_output (sendLine enc line lineData width t) =
       (m_output (sendLine_prepared line t) ++
        [((if negb (cellColor c =? m_remoteColor t)%Z && negb (m_consoleMode t)
           then sendLine_color "" (cellColor c) else "") ++
          take n (cellText enc c ++ tail))%string])%list) /\
  m_remoteColor (sendLine enc line lineData width t) = cellColor (last rest c) /\
  (exists (n : nat) (tail : string),
     m_output (sendLine enc line lineData width (sendLine enc line lineData width t)) =
       (m_output (sendLine_prepared line (sendLine enc line lineData width t)) ++
        [((if negb (cellColor c =? cellColor (last rest c))%Z && negb (m_consoleMode t)
           then sendLine_color "" (cellColor c) else "") ++
          take n (cellText enc c ++ tail))%string])%list).
Proof.
  intros Hcells.
  destruct (sendLine_remoteColor line lineData width t c rest Hcells) as (Hrc & Hcm).
  split; [|split].
  - exact (sendLine_content_opens line lineData width t c rest Hcells).
  - exact Hrc.
  - destruct (sendLine_content_opens line lineData width
                (sendLine enc line lineData width t) c rest Hcells) as (n & tail & H).
    exists n, tail. rewrite H. unfold cellFragment, cellChanged.
    now rewrite Hrc, Hcm.
Qed.

(** C4: for a cell marked as the trailing half of a wide character the
    loop appends no encoded bytes: the conversion is never consulted, the
    buffer grows by the cell's colour fragment at most, and when no colour
    fragment is due the buffer and [length] stay as they are. *)
Theorem sendLine_cell_trailing (st : Terminal * nat) (cell : CHAR_INFO) :
  cellTrailing cell = true ->
  (forall (enc' : Z -> string) (ch : Z),
     sendLine_cell enc st cell = sendLine_cell enc' st (mkCHAR_INFO ch (Attributes cell))) /\
  m_termLine (fst (sendLine_cell enc st cell)) =
    m_termLine (fst st) ++ cellFragment (fst st) cell /\
  (cellChanged (fst st) cell = false ->
     m_termLine (fst (sendLine_cell enc st cell)) = m_termLine (fst st) /\
     snd (sendLine_cell enc st cell) = snd st).
Proof.
  intros Htr. destruct st as [t len]. cbn [fst snd].
  split; [|split].
  - intros enc' ch. unfold sendLine_cell. cbn [Attributes fst snd].
    unfold cellTrailing in Htr. now rewrite Htr.
  - rewrite sendLine_cell_eq. cbn [fst m_termLine].
    unfold cellText. rewrite Htr. now rewrite append_nil_r.
  - intros Hch. rewrite sendLine_cell_eq. cbn [fst snd m_termLine].
    unfold cellText, cellFragment. rewrite Htr, Hch. cbn [orb append].
    now rewrite append_nil_r.
Qed.

End LineRenderer.

(** ** Sample sessions *)

Section Sessions.

(** C2 (as stated, refuted): with the cursor already hidden on row 0, one
    [sendLine] call issues three writes; the erase-line fragment is a write
    of its own and is not part of the write that carries the row. *)
Lemma sendLine_erase_is_a_separate_write :
  m_output (sendLine utf8_of_wchar 0 [cellA] 1 (set_cursorHidden true Terminal_new)) =
    [CR; CSI ++ "2K"; CSI ++ "0mA"] /\
  List.length
    (m_output (sendLine utf8_of_wchar 0 [cellA] 1 (set_cursorHidden true Terminal_new)))
    <> 1%nat.
Proof. split; [reflexivity | discriminate]. Qed.

(** C1 (as stated, refuted): the row [cellA] rendered a second time is
    written as the bare byte [A], with no colour fragment for its first
    cell; the fragment would be there had [m_remoteColor] been unset at the
    start of the call. *)
Lemma sendLine_color_carried_across_rows :
  m_output (sendLine utf8_of_wchar 0 [cellA] 1 afterRowA) =
    (m_output afterRowA ++ [CR; (CSI ++ "2K")%string; "A"])%list /\
  m_output (sendLine utf8_of_wchar 0 [cellA] 1 (set_remoteColor (-1) afterRowA)) =
    (m_output afterRowA ++ [CR; (CSI ++ "2K")%string; (CSI ++ "0mA")%string])%list /\
  sendLine utf8_of_wchar 0 [cellA] 1 afterRowA <>
  sendLine utf8_of_wchar 0 [cellA] 1 (set_remoteColor (-1) afterRowA).
Proof. split; [reflexivity | split; [reflexivity | discriminate]]. Qed.

(** The row [cellA] rendered twice on a new terminal: a fragment the first
    time, none the second time. *)
Lemma sendLine_first_cell_color_witness :
  (exists (n : nat) (tail : string),
     m_output (sendLine utf8_of_wchar 0 [cellA] 1 Terminal_new) =
       (m_output (sendLine_prepared 0 Terminal_new) ++
        [(sendLine_color "" 7 ++ Bytes.take n ("A" ++ tail))%string])%list) /\
  m_remoteColor (sendLine utf8_of_wchar 0 [cellA] 1 Terminal_new) = 7 /\
  (exists (n : nat) (tail : string),
     m_output (sendLine utf8_of_wchar 0 [cellA] 1
                 (sendLine utf8_of_wchar 0 [cellA] 1 Terminal_new)) =
       (m_output (sendLine_prepared 0 (sendLine utf8_of_wchar 0 [cellA] 1 Terminal_new)) ++
        [("" ++ Bytes.take n ("A" ++ tail))%string])%list).
Proof.
  apply (sendLine_first_cell_color utf8_of_wchar 0 [cellA] 1 Terminal_new cellA []).
  reflexivity.
Defined.

(** C3 (as stated, refuted): in the row [A] (light gray on black), blank
    (light gray on blue) the colour change sits on a trailing blank cell
    with nothing visible after it, and its fragment is transmitted; only
    the blank itself is dropped. *)
Lemma sendLine_trailing_fragment_transmitted :
  last (m_output (sendLine utf8_of_wchar 0 [cellA; cellBlankBlue] 2 Terminal_new)) "" =
    CSI ++ "0mA" ++ CSI ++ "0;37;44m" /\
  last (m_output (sendLine utf8_of_wchar 0 [cellA; cellBlankBlue] 2 Terminal_new)) "" <>
    CSI ++ "0mA" /\
  m_termLine (sendLine utf8_of_wchar 0 [cellA; cellBlankBlue] 2 Terminal_new) =
    CSI ++ "0mA" ++ CSI ++ "0;37;44m" ++ " ".
Proof. split; [reflexivity | split; [discriminate | reflexivity]]. Qed.

(** A trailing cell after the row [cellA]: same colour, nothing appended. *)
Lemma sendLine_cell_trailing_witness :
  (forall (enc' : Z -> string) (ch : Z),
     sendLine_cell utf8_of_wchar (afterRowA, 1%nat) cellTrail =
     sendLine_cell enc' (afterRowA, 1%nat) (mkCHAR_INFO ch (Attributes cellTrail))) /\
  m_termLine (fst (sendLine_cell utf8_of_wchar (afterRowA, 1%nat) cellTrail)) =
    m_termLine (fst (afterRowA, 1%nat)) ++ cellFragment (fst (afterRowA, 1%nat)) cellTrail /\
  (cellChanged (fst (afterRowA, 1%nat)) cellTrail = false ->
     m_termLine (fst (sendLine_cell utf8_of_wchar (afterRowA, 1%nat) cellTrail)) =
       m_termLine (fst (afterRowA, 1%nat)) /\
     snd (sendLine_cell utf8_of_wchar (afterRowA, 1%nat) cellTrail) = snd (afterRowA, 1%nat)).
Proof.
  apply (sendLine_cell_trailing utf8_of_wchar (afterRowA, 1%nat) cellTrail).
  reflexivity.
Defined.

(** C5 (the code departs from it): in console mode a move to the row the
    cursor is believed to be on writes a carriage return; [sendLine] and
    [finishOutput] inherit it. *)
Theorem console_mode_writes_carriage_return :
  m_output (moveTerminalToLine 0 (setConsoleMode 1 Terminal_new)) = [CR] /\
  m_output (sendLine utf8_of_wchar 0 [cellA] 1 (setConsoleMode 1 Terminal_new)) = [CR; "A"] /\
  m_output (finishOutput (0, 0)
              (sendLine utf8_of_wchar 0 [cellA] 1 (setConsoleMode 1 Terminal_new))) =
    [CR; "A"; CR].
Proof. repeat split. Qed.

(** A whole redraw: reset with clear, the row [A] (bright white on
    black), [B] (light gray on black) on row 0, the cursor left at column
    2. *)
Example redraw_session :
  m_output
    (finishOutput (2, 0)
       (sendLine utf8_of_wchar 0 [mkCHAR_INFO 65 0x0F; mkCHAR_INFO 66 0x07] 2
          (reset true 0 Terminal_new))) =
  [ CSI ++ "0m" ++ CSI ++ "1;1H" ++ CSI ++ "2J";
    CSI ++ "?25l";
    CR;
    CSI ++ "2K";
    CSI ++ "0;1mA" ++ CSI ++ "0mB";
    CR;
    CSI ++ "3G" ++ CSI ++ "?25h" ]%string.
Proof. reflexivity. Qed.

End Sessions.


(** ** Belief state and console mode *)

Section Belief.

Variable enc : Z -> string.

Lemma reset_belief (sendClearFirst : bool) (newLine : Z) (t : Terminal) :
  belief (reset sendClearFirst newLine t) = (newLine, false, (0, newLine), -1) /\
  m_consoleMode (reset sendClearFirst newLine t) = m_consoleMode t.
Proof.
  unfold reset, belief.
  destruct (sendClearFirst && negb (m_consoleMode t)); cbn; auto.
Qed.

Lemma finishOutput_belief (p : Z * Z) (t : Terminal) :
  belief (finishOutput p t) =
    ((if (if negb ((fst p =? fst (m_cursorPos t)) && (snd p =? snd (m_cursorPos t)))
          then true else m_cursorHidden t)
      then snd p else m_remoteLine t),
     false, p, m_remoteColor t) /\
  m_consoleMode (finishOutput p t) = m_consoleMode t.
Proof.
  unfold finishOutput.
  set (moved := negb ((fst p =? fst (m_cursorPos t)) && (snd p =? snd (m_cursorPos t)))).
  set (t1 := if moved then hideTerminalCursor t else t).
  assert (H1 : belief t1 =
               (m_remoteLine t, (if moved then true else m_cursorHidden t),
                m_cursorPos t, m_remoteColor t) /\
               m_consoleMode t1 = m_consoleMode t).
  { subst t1. destruct moved; [|auto].
    destruct (hideTerminalCursor_belief t) as (Hb & Hm & _). auto. }
  destruct H1 as (Hb1 & Hm1). unfold belief in Hb1.
  injection Hb1 as Hrl Hch Hcp Hrc. rewrite Hch.
  destruct (if moved then true else m_cursorHidden t).
  - destruct (moveTerminalToLine_belief (snd p) t1) as (Hb2 & Hm2 & _).
    unfold belief in Hb2. injection Hb2 as Hrl2 Hch2 Hcp2 Hrc2.
    unfold belief, writeUnlessConsole.
    destruct (negb (m_consoleMode (moveTerminalToLine (snd p) t1))); cbn;
      rewrite Hrl2, Hrc2, Hm2, Hrc, Hm1; auto.
  - unfold belief. cbn. rewrite Hrl, Hrc, Hm1, Hch. auto.
Qed.

Lemma sendLine_belief (line : Z) (lineData : list CHAR_INFO) (width : Z) (t : Terminal) :
  belief (sendLine enc line lineData width t) =
    (line, true, m_cursorPos t,
     match firstn (Z.to_nat width) lineData with
     | [] => m_remoteColor t
     | c :: rest => cellColor (last rest c)
     end) /\
  m_consoleMode (sendLine enc line lineData width t) = m_consoleMode t.
Proof.
  rewrite sendLine_unfold.
  destruct (cells_loop_frame enc (firstn (Z.to_nat width) lineData)
              (sendLine_prepared line t, 0%nat)) as (_ & Hrl & Hch & Hcp & Hcm).
  cbn [fst] in *.
  destruct (hideTerminalCursor_belief t) as (Hb1 & Hm1 & _).
  destruct (moveTerminalToLine_belief line (hideTerminalCursor t)) as (Hb2 & Hm2 & _).
  unfold belief in Hb1, Hb2.
  injection Hb1 as Hrl1 Hch1 Hcp1 Hrc1. injection Hb2 as Hrl2 Hch2 Hcp2 Hrc2.
  assert (Hp : m_remoteLine (sendLine_prepared line t) = line /\
               m_cursorHidden (sendLine_prepared line t) = true /\
               m_cursorPos (sendLine_prepared line t) = m_cursorPos t /\
               m_remoteColor (sendLine_prepared line t) = m_remoteColor t /\
               m_consoleMode (sendLine_prepared line t) = m_consoleMode t).
  { unfold sendLine_prepared, writeUnlessConsole.
    destruct (negb (m_consoleMode (moveTerminalToLine line (hideTerminalCursor t))));
      cbn; rewrite Hrl2, Hch2, Hcp2, Hrc2, Hm2, Hch1, Hcp1, Hrc1, Hm1; auto. }
  destruct Hp as (Hp1 & Hp2 & Hp3 & Hp4 & Hp5).
  unfold belief. cbn [write m_remoteLine m_cursorHidden m_cursorPos m_remoteColor
                      m_consoleMode].
  rewrite Hrl, Hch, Hcp, Hcm, Hp1, Hp2, Hp3, Hp5.
  split; [|reflexivity]. f_equal.
  destruct (firstn (Z.to_nat width) lineData) as [|c rest].
  - exact Hp4.
  - apply cells_loop_remoteColor.
Qed.

(** One operation: the new belief is determined by the old belief and the
    operation's inputs, and the mode switch is left as it is. *)
Lemma perform_belief (o : operation) (t1 t2 : Terminal) :
  belief t1 = belief t2 ->
  belief (perform enc o t1) = belief (perform enc o t2).
Proof.
  unfold belief at 1 2. intros H. injection H as Hrl Hch Hcp Hrc.
  destruct o as [b n | line data width | p | | line]; cbn [perform].
  - now rewrite (proj1 (reset_belief b n t1)), (proj1 (reset_belief b n t2)).
  - rewrite (proj1 (sendLine_belief line data width t1)),
            (proj1 (sendLine_belief line data width t2)).
    now rewrite Hcp, Hrc.
  - rewrite (proj1 (finishOutput_belief p t1)), (proj1 (finishOutput_belief p t2)).
    now rewrite Hrl, Hch, Hcp, Hrc.
  - rewrite (proj1 (hideTerminalCursor_belief t1)), (proj1 (hideTerminalCursor_belief t2)).
    now rewrite Hrl, Hcp, Hrc.
  - rewrite (proj1 (moveTerminalToLine_belief line t1)),
            (proj1 (moveTerminalToLine_belief line t2)).
    now rewrite Hch, Hcp, Hrc.
Qed.

Lemma perform_consoleMode (o : operation) (t : Terminal) :
  m_consoleMode (perform enc o t) = m_consoleMode t.
Proof.
  destruct o as [b n | line data width | p | | line]; cbn [perform].
  - apply reset_belief.
  - apply sendLine_belief.
  - apply finishOutput_belief.
  - apply hideTerminalCursor_belief.
  - apply moveTerminalToLine_belief.
Qed.

(** C10: two encoders that start with the same belief (row, cursor
    visibility, cursor position, last colour) and perform the same
    operations with the same inputs end with the same belief, whatever
    their console-mode switches are; the operations leave the switches as
    they are. *)
Theorem belief_independent_of_console_mode (os : list operation) :
  forall t1 t2 : Terminal,
    belief t1 = belief t2 ->
    belief (performAll enc os t1) = belief (performAll enc os t2) /\
    m_consoleMode (performAll enc os t1) = m_consoleMode t1 /\
    m_consoleMode (performAll enc os t2) = m_consoleMode t2.
Proof.
  induction os as [|o os IH]; intros t1 t2 H; cbn [performAll fold_left].
  - auto.
  - fold (performAll enc os (perform enc o t1)).
    fold (performAll enc os (perform enc o t2)).
    destruct (IH _ _ (perform_belief o t1 t2 H)) as (Hb & H1 & H2).
    rewrite H1, H2, !perform_consoleMode. auto.
Qed.

End Belief.

(** A full redraw (reset, one row, finish) on a terminal in console mode
    and on one that is not. *)
Lemma belief_independent_of_console_mode_witness :
  belief (performAll utf8_of_wchar
            [OpReset true 0; OpSendLine 0 [cellA; cellBlankBlue] 2; OpFinishOutput (2, 0)]
            (setConsoleMode 1 Terminal_new)) =
  belief (performAll utf8_of_wchar
            [OpReset true 0; OpSendLine 0 [cellA; cellBlankBlue] 2; OpFinishOutput (2, 0)]
            (setConsoleMode 0 Terminal_new)) /\
  m_consoleMode (performAll utf8_of_wchar
            [OpReset true 0; OpSendLine 0 [cellA; cellBlankBlue] 2; OpFinishOutput (2, 0)]
            (setConsoleMode 1 Terminal_new)) = m_consoleMode (setConsoleMode 1 Terminal_new) /\
  m_consoleMode (performAll utf8_of_wchar
            [OpReset true 0; OpSendLine 0 [cellA; cellBlankBlue] 2; OpFinishOutput (2, 0)]
            (setConsoleMode 0 Terminal_new)) = m_consoleMode (setConsoleMode 0 Terminal_new).
Proof.
  apply (belief_independent_of_console_mode utf8_of_wchar
           [OpReset true 0; OpSendLine 0 [cellA; cellBlankBlue] 2; OpFinishOutput (2, 0)]
           (setConsoleMode 1 Terminal_new) (setConsoleMode 0 Terminal_new)).
  reflexivity.
Defined.

(** ** Console mode *)

Section ConsoleMode.

(** Apart from the carriage return of a move to the believed row, console
    mode is silent: [reset], [hideTerminalCursor] and a move to another row
    write nothing, and no cell gets a colour fragment. *)
Lemma console_mode_silent_elsewhere (t : Terminal) :
  m_consoleMode t = true ->
  (forall b n, m_output (reset b n t) = m_output t) /\
  m_output (hideTerminalCursor t) = m_output t /\
  (forall line, line <> m_remoteLine t ->
     m_output (moveTerminalToLine line t) = m_output t) /\
  (forall cell, cellFragment t cell = "").
Proof.
  intros Hm. split; [|split; [|split]].
  - intros b n. unfold reset. rewrite Hm, andb_false_r. reflexivity.
  - unfold hideTerminalCursor, writeUnlessConsole. rewrite Hm.
    destruct (m_cursorHidden t); reflexivity.
  - intros line Hl.
    unfold moveTerminalToLine, writeUnlessConsole. rewrite Hm.
    destruct (Z.ltb_spec line (m_remoteLine t)); [reflexivity|].
    destruct (Z.gtb_spec line (m_remoteLine t)); [|lia].
    rewrite moveTerminalToLine_loop_spec by lia. cbn [m_output]. rewrite Hm.
    apply app_nil_r.
  - intros cell. unfold cellFragment, cellChanged. rewrite Hm, andb_false_r. reflexivity.
Qed.

(** The carriage return is written whatever the mode is. *)
Lemma moveTerminalToLine_same_row (t : Terminal) :
  m_output (moveTerminalToLine (m_remoteLine t) t) = (m_output t ++ [CR])%list.
Proof.
  unfold moveTerminalToLine.
  rewrite Z.ltb_irrefl.
  destruct (Z.gtb_spec (m_remoteLine t) (m_remoteLine t)); [lia | reflexivity].
Qed.

End ConsoleMode.

(** ** Decimal output: the digit loop ends within its buffer *)

Section Decimal.

(** More fuel than the number has digits changes nothing: the loop has
    stopped on [n == 0] before. *)
Lemma outUInt_loop_fuel (fuel : nat) :
  forall (k : nat) (n : Z) (pbuf : string),
    0 <= n < 10 ^ Z.of_nat (S fuel) ->
    outUInt_loop (fuel + k) n pbuf = outUInt_loop fuel n pbuf.
Proof.
  induction fuel as [|fuel IH]; intros k n pbuf Hn.
  - assert (Hq : n / 10 = 0) by (apply Z.div_small; cbn in Hn; lia).
    destruct k; cbn [outUInt_loop Nat.add]; rewrite Hq; reflexivity.
  - cbn [outUInt_loop Nat.add].
    destruct (n / 10 =? 0); [reflexivity|].
    apply IH.
    rewrite Nat2Z.inj_succ, Z.pow_succ_r in Hn by lia.
    split; [apply Z.div_pos; lia|].
    apply Z.div_lt_upper_bound; lia.
Qed.

(** An [unsigned int] never exhausts the 31 digits of the buffer. *)
Lemma outUInt_total (out : string) (n : Z) (k : nat) :
  outUInt out n = out ++ outUInt_loop (30 + k) (n mod 2 ^ 32) "".
Proof.
  unfold outUInt. rewrite outUInt_loop_fuel; [reflexivity|].
  assert (H := Z.mod_pos_bound n (2 ^ 32) ltac:(lia)).
  assert (2 ^ 32 < 10 ^ Z.of_nat 31) by (vm_compute; reflexivity).
  lia.
Qed.

End Decimal.

(** ** Decimal output: the digits read back *)

Section DecimalRoundTrip.
Import BytesFacts.

Lemma digitChar_digit (d : Z) :
  0 <= d < 10 ->
  isDigit (digitChar d) = true /\ digitValue (digitChar d) = d /\
  (digitChar d = "0"%char -> d = 0).
Proof.
  intros H.
  assert (Hc : In d [0; 1; 2; 3; 4; 5; 6; 7; 8; 9]) by (cbn [In]; lia).
  cbn [In] in Hc.
  repeat (destruct Hc as [<-|Hc];
          [repeat split; try reflexivity; try discriminate|]).
  contradiction.
Qed.

Lemma decimalValue_from_snoc (s : string) :
  forall (acc : Z) (c : ascii),
    decimalValue_from acc (s ++ String c "") = 10 * decimalValue_from acc s + digitValue c.
Proof.
  induction s as [|a s IH]; intros acc c; cbn [append decimalValue_from].
  - reflexivity.
  - apply IH.
Qed.

Lemma allDigits_snoc (s : string) (c : ascii) :
  allDigits s = true -> isDigit c = true -> allDigits (s ++ String c "") = true.
Proof.
  intros Hs Hc. induction s as [|a s IH]; cbn [append allDigits] in *.
  - now rewrite Hc.
  - apply andb_true_iff in Hs as [Ha Hs]. now rewrite Ha, IH.
Qed.

(** The digit loop with enough fuel: the digits of [n], most significant
    first, in front of what the buffer held. *)
Lemma outUInt_loop_digits (fuel : nat) :
  forall (n : Z) (pbuf : string),
    0 <= n < 10 ^ Z.of_nat (S fuel) ->
    exists ds : string,
      outUInt_loop fuel n pbuf = ds ++ pbuf /\
      allDigits ds = true /\
      decimalValue ds = n /\
      (1 <= String.length ds <= S fuel)%nat /\
      (forall r, ds = String "0" r -> n = 0 /\ r = "").
Proof.
  induction fuel as [|fuel IH]; intros n pbuf Hn.
  - assert (Hq : n / 10 = 0) by (apply Z.div_small; cbn in Hn; lia).
    assert (Hm : n mod 10 = n) by (apply Z.mod_small; cbn in Hn; lia).
    destruct (digitChar_digit n) as (Hd & Hv & Hz); [cbn in Hn; lia|].
    exists (String (digitChar n) "").
    cbn [outUInt_loop]. rewrite Hq, Hm. cbn [Z.eqb append allDigits String.length].
    rewrite Hd. unfold decimalValue. cbn [decimalValue_from].
    repeat split; try lia; try reflexivity.
    + injection H as Hc _. now apply Hz.
    + now injection H.
  - assert (Hmod : 0 <= n mod 10 < 10) by (apply Z.mod_pos_bound; lia).
    destruct (digitChar_digit (n mod 10) Hmod) as (Hd & Hv & Hz).
    cbn [outUInt_loop].
    destruct (Z.eqb_spec (n / 10) 0) as [Hq|Hq].
    + assert (Hsmall : n = n mod 10) by (rewrite (Z.div_mod n 10) at 1; lia).
      exists (String (digitChar (n mod 10)) "").
      cbn [append allDigits String.length]. rewrite Hd.
      unfold decimalValue. cbn [decimalValue_from].
      repeat split; try lia; try reflexivity.
      * injection H as Hc _. apply Hz in Hc. lia.
      * now injection H.
    + assert (Hq10 : 0 <= n / 10 < 10 ^ Z.of_nat (S fuel)).
      { rewrite (Nat2Z.inj_succ (S fuel)), Z.pow_succ_r in Hn by lia.
        split; [apply Z.div_pos; lia | apply Z.div_lt_upper_bound; lia]. }
      destruct (IH (n / 10) (String (digitChar (n mod 10)) pbuf) Hq10)
        as (ds & Hloop & Hall & Hval & Hlen & Hlead).
      exists (ds ++ String (digitChar (n mod 10)) "").
      rewrite Hloop, append_assoc. cbn [append].
      split; [reflexivity|]. split; [now apply allDigits_snoc|].
      split.
      { unfold decimalValue in *. rewrite decimalValue_from_snoc, Hval, Hv.
        rewrite (Z.div_mod n 10) at 3; lia. }
      split.
      { rewrite length_append. cbn [String.length]. lia. }
      intros r Hr. exfalso.
      destruct ds as [|c ds']; [cbn in Hlen; lia|].
      cbn [append] in Hr. injection Hr as Hc _. subst c.
      destruct (Hlead ds' eq_refl) as (H0 & _). contradiction.
Qed.

(** X1: the bytes [outUInt] appends are between one and ten decimal
    digits that read back as the argument modulo [2^32] (the conversion to
    [unsigned int]); the first digit is [0] only for the number zero, which
    is written as the single digit [0]. *)
Theorem outUInt_reads_back (out : string) (n : Z) :
  exists ds : string,
    outUInt out n = out ++ ds /\
    allDigits ds = true /\
    decimalValue ds = n mod 2 ^ 32 /\
    (1 <= String.length ds <= 10)%nat /\
    (forall r, ds = String "0" r -> n mod 2 ^ 32 = 0 /\ r = "").
Proof.
  assert (Hn := Z.mod_pos_bound n (2 ^ 32) ltac:(lia)).
  assert (Hb : 0 <= n mod 2 ^ 32 < 10 ^ Z.of_nat 10).
  { assert (2 ^ 32 < 10 ^ Z.of_nat 10) by (vm_compute; reflexivity). lia. }
  destruct (outUInt_loop_digits 9 (n mod 2 ^ 32) "" Hb)
    as (ds & Hloop & Hall & Hval & Hlen & Hlead).
  exists ds. unfold outUInt.
  change 30%nat with (9 + 21)%nat.
  rewrite outUInt_loop_fuel by exact Hb.
  rewrite Hloop, append_nil_r. auto.
Qed.

End DecimalRoundTrip.

(** ** The colour block of [sendLine], read back as SGR parameters *)

Section ColorPolicy.
Import BytesFacts.

Lemma land_byte (c : Z) : 0 <= Z.land c 255 < 256.
Proof.
  change 255 with (Z.ones 8). rewrite Z.land_ones by lia.
  apply Z.mod_pos_bound. reflexivity.
Qed.

Lemma In_colorWords (k : Z) : 0 <= k < 256 -> In k colorWords.
Proof.
  intros H. unfold colorWords. apply in_map_iff.
  exists (Z.to_nat k). split; [lia|]. apply in_seq. lia.
Qed.

(** The colour tests look at the low eight bits of the word only. *)
Lemma flagSet_byte (c m : Z) :
  Z.land 255 m = m -> flagSet (Z.land c 255) m = flagSet c m.
Proof. intros H. unfold flagSet. now rewrite <- Z.land_assoc, H. Qed.

Lemma sendLine_fore_byte (c : Z) : sendLine_fore (Z.land c 255) = sendLine_fore c.
Proof. unfold sendLine_fore. now rewrite !flagSet_byte by reflexivity. Qed.

Lemma sendLine_back_byte (c : Z) : sendLine_back (Z.land c 255) = sendLine_back c.
Proof. unfold sendLine_back. now rewrite !flagSet_byte by reflexivity. Qed.

Lemma sendLine_color_byte (termLine : string) (c : Z) :
  sendLine_color termLine (Z.land c 255) = sendLine_color termLine c.
Proof. unfold sendLine_color. now rewrite sendLine_fore_byte, sendLine_back_byte. Qed.

(** A test of the fragment that holds for the 256 attribute words holds
    for every colour. *)
Lemma all_colors (Q : Z -> Z -> string -> bool) :
  forallb (fun k => Q (sendLine_fore k) (sendLine_back k) (sendLine_color "" k))
          colorWords = true ->
  forall color : Z,
    Q (sendLine_fore color) (sendLine_back color) (sendLine_color "" color) = true.
Proof.
  intros Hall color.
  rewrite <- (sendLine_fore_byte color), <- (sendLine_back_byte color),
          <- (sendLine_color_byte "" color).
  rewrite forallb_forall in Hall. apply Hall, In_colorWords, land_byte.
Qed.

Lemma listZ_eqb_eq (l1 : list Z) : forall l2, listZ_eqb l1 l2 = true -> l1 = l2.
Proof.
  induction l1 as [|a l1 IH]; intros [|b l2] H; cbn in H; try discriminate.
  - reflexivity.
  - apply andb_true_iff in H as [Hab H]. apply Z.eqb_eq in Hab.
    now rewrite Hab, (IH l2 H).
Qed.

(** The fragment of a colour decodes to the parameters of the policy. *)
Lemma sendLine_color_params (color : Z) :
  sgrParams (sendLine_color "" color) =
  Some (colorParams (sendLine_fore color) (sendLine_back color)).
Proof.
  pose proof (all_colors
    (fun f b frag => match sgrParams frag with
                     | Some ps => listZ_eqb ps (colorParams f b)
                     | None => false
                     end)) as H.
  specialize (H ltac:(vm_compute; reflexivity) color). cbv beta in H.
  destruct (sgrParams (sendLine_color "" color)) as [ps|]; [|discriminate].
  now rewrite (listZ_eqb_eq _ _ H).
Qed.

(** X2: what [sendLine] appends for a colour change is a well-formed SGR
    control sequence [ESC [ p1 ; ... ; pn m] whose parameters are those of
    the colour policy for the cell's foreground and background: reset
    first, then bold, the 37-90 pair, invert and explicit channels as the
    policy has them, then conceal for equal colours. *)
Theorem sendLine_color_reads_back (termLine : string) (color : Z) :
  exists fragment : string,
    sendLine_color termLine color = termLine ++ fragment /\
    sgrParams fragment =
      Some (colorParams (sendLine_fore color) (sendLine_back color)).
Proof.
  exists (sendLine_color "" color). split.
  - apply sendLine_color_append.
  - apply sendLine_color_params.
Qed.

Lemma brightFollowsBase_sound (ps : list Z) :
  forall prev : option Z,
    brightFollowsBase prev ps = true ->
    forall (i : nat) (p : Z),
      nth_error ps i = Some p -> 90 <= p ->
      match i with
      | O => exists q, prev = Some q /\ (q = p - 60 \/ (p = 90 /\ q = 37))
      | S j => nth_error ps j = Some (p - 60) \/
               (p = 90 /\ nth_error ps j = Some 37)
      end.
Proof.
  induction ps as [|p0 ps IH]; intros prev Hc i p Hi Hp.
  - destruct i; discriminate.
  - cbn [brightFollowsBase] in Hc. apply andb_true_iff in Hc as [H0 Hrest].
    destruct i as [|j]; cbn [nth_error] in Hi.
    + injection Hi as ->.
      replace (90 <=? p) with true in H0 by (symmetry; apply Z.leb_le; exact Hp).
      destruct prev as [q|]; [|discriminate].
      exists q. split; [reflexivity|].
      apply orb_true_iff in H0 as [H0|H0].
      * left. now apply Z.eqb_eq.
      * right. apply andb_true_iff in H0 as [Ha Hb].
        split; now apply Z.eqb_eq.
    + specialize (IH (Some p0) Hrest j p Hi Hp).
      destruct j as [|j'].
      * destruct IH as (q & Hq & [Hb|[Hb1 Hb2]]); injection Hq as <-; cbn [nth_error].
        -- left. now rewrite Hb.
        -- right. now rewrite Hb2.
      * exact IH.
Qed.

(** X3: in every colour fragment a bright code (9X or 10X) stands right
    after another parameter, which is the code 60 below it (3X or 4X, the
    same colour without the bright bit) or, before 90, the light-gray code
    37; a bright code is never the first parameter and never follows
    anything else. *)
Theorem sendLine_color_bright_after_base (color : Z) :
  exists ps : list Z,
    sgrParams (sendLine_color "" color) = Some ps /\
    forall (i : nat) (p : Z),
      nth_error ps i = Some p -> 90 <= p ->
      exists j : nat,
        i = S j /\
        (nth_error ps j = Some (p - 60) \/ (p = 90 /\ nth_error ps j = Some 37)).
Proof.
  pose proof (all_colors
    (fun f b frag => match sgrParams frag with
                     | Some ps => brightFollowsBase None ps
                     | None => false
                     end)) as H.
  specialize (H ltac:(vm_compute; reflexivity) color). cbv beta in H.
  destruct (sgrParams (sendLine_color "" color)) as [ps|]; [|discriminate].
  exists ps. split; [reflexivity|].
  intros i p Hi Hp.
  pose proof (brightFollowsBase_sound ps None H i p Hi Hp) as Hs.
  destruct i as [|j].
  - destruct Hs as (q & Hq & _). discriminate.
  - exists j. auto.
Qed.

(** Dark gray on black, bright red on bright blue: 90 after 37, 91 after
    31 and 104 after 44. *)
Lemma sendLine_color_bright_after_base_witness :
  exists ps : list Z,
    sgrParams (sendLine_color "" 0x9C) = Some ps /\
    forall (i : nat) (p : Z),
      nth_error ps i = Some p -> 90 <= p ->
      exists j : nat,
        i = S j /\
        (nth_error ps j = Some (p - 60) \/ (p = 90 /\ nth_error ps j = Some 37)).
Proof. exact (sendLine_color_bright_after_base 0x9C). Defined.

Lemma existsb_eqb_In (x : Z) (ps : list Z) :
  existsb (Z.eqb x) ps = true <-> In x ps.
Proof.
  rewrite existsb_exists. split.
  - intros (y & Hy & He). apply Z.eqb_eq in He. now subst.
  - intros H. exists x. split; [exact H | apply Z.eqb_refl].
Qed.

Lemma eqb_true_iff_iff (a b : bool) : Bool.eqb a b = true -> (a = true <-> b = true).
Proof. destruct a, b; cbn; intuition discriminate. Qed.

(** X4: among the parameters of a colour fragment, conceal (8) is there
    exactly when foreground and background are the same colour, invert (7)
    exactly when the background is white, and bold (1) exactly for white on
    black. *)
Theorem sendLine_color_attributes (color : Z) :
  exists ps : list Z,
    sgrParams (sendLine_color "" color) = Some ps /\
    (In 8 ps <-> sendLine_fore color = sendLine_back color) /\
    (In 7 ps <-> sendLine_back color = WHITE) /\
    (In 1 ps <-> sendLine_back color = BLACK /\ sendLine_fore color = WHITE).
Proof.
  pose proof (all_colors
    (fun f b frag =>
       match sgrParams frag with
       | Some ps =>
           Bool.eqb (existsb (Z.eqb 8) ps) (f =? b) &&
           Bool.eqb (existsb (Z.eqb 7) ps) (b =? WHITE) &&
           Bool.eqb (existsb (Z.eqb 1) ps) ((b =? BLACK) && (f =? WHITE))
       | None => false
       end)) as H.
  specialize (H ltac:(vm_compute; reflexivity) color). cbv beta in H.
  destruct (sgrParams (sendLine_color "" color)) as [ps|]; [|discriminate].
  exists ps. split; [reflexivity|].
  apply andb_true_iff in H as [H H1]. apply andb_true_iff in H as [H8 H7].
  apply eqb_true_iff_iff in H8, H7, H1.
  rewrite existsb_eqb_In in H8, H7, H1.
  rewrite Z.eqb_eq in H8, H7. rewrite andb_true_iff, !Z.eqb_eq in H1.
  auto.
Qed.

(** Red on red: conceal, neither invert nor bold. *)
Lemma sendLine_color_attributes_witness :
  exists ps : list Z,
    sgrParams (sendLine_color "" 0x44) = Some ps /\
    (In 8 ps <-> sendLine_fore 0x44 = sendLine_back 0x44) /\
    (In 7 ps <-> sendLine_back 0x44 = WHITE) /\
    (In 1 ps <-> sendLine_back 0x44 = BLACK /\ sendLine_fore 0x44 = WHITE).
Proof. exact (sendLine_color_attributes 0x44). Defined.

Lemma sendLine_fore_palette (c : Z) : In (sendLine_fore c) palette.
Proof.
  unfold sendLine_fore.
  destruct (flagSet c FOREGROUND_RED), (flagSet c FOREGROUND_GREEN),
           (flagSet c FOREGROUND_BLUE), (flagSet c FOREGROUND_INTENSITY);
    vm_compute; tauto.
Qed.

Lemma sendLine_back_palette (c : Z) : In (sendLine_back c) palette.
Proof.
  unfold sendLine_back.
  destruct (flagSet c BACKGROUND_RED), (flagSet c BACKGROUND_GREEN),
           (flagSet c BACKGROUND_BLUE), (flagSet c BACKGROUND_INTENSITY);
    vm_compute; tauto.
Qed.

Lemma listZ_eqb_refl (l : list Z) : listZ_eqb l l = true.
Proof. induction l as [|a l IH]; cbn; [reflexivity | now rewrite Z.eqb_refl]. Qed.

Lemma sameParamsSameColors_all :
  forallb (fun f1 => forallb (fun b1 => forallb (fun f2 => forallb (fun b2 =>
     sameParamsSameColors f1 b1 f2 b2) palette) palette) palette) palette = true.
Proof. vm_compute. reflexivity. Qed.

(** X5: the fragment tells the colour pairs apart: two colours with the
    same fragment have the same background and the same foreground, the
    one exception being black and light gray on a white background, which
    both give [ESC [ 0 ; 7 m]. *)
Theorem sendLine_color_injective (c1 c2 : Z) :
  sendLine_color "" c1 = sendLine_color "" c2 ->
  sendLine_back c1 = sendLine_back c2 /\
  (sendLine_fore c1 = sendLine_fore c2 \/
   (sendLine_back c1 = WHITE /\
    (sendLine_fore c1 = BLACK \/ sendLine_fore c1 = LTGRAY) /\
    (sendLine_fore c2 = BLACK \/ sendLine_fore c2 = LTGRAY))).
Proof.
  intros Heq.
  assert (Hp : colorParams (sendLine_fore c1) (sendLine_back c1) =
               colorParams (sendLine_fore c2) (sendLine_back c2)).
  { pose proof (sendLine_color_params c1) as H1.
    rewrite Heq, sendLine_color_params in H1. congruence. }
  pose proof sameParamsSameColors_all as Hall.
  rewrite forallb_forall in Hall.
  specialize (Hall _ (sendLine_fore_palette c1)). rewrite forallb_forall in Hall.
  specialize (Hall _ (sendLine_back_palette c1)). rewrite forallb_forall in Hall.
  specialize (Hall _ (sendLine_fore_palette c2)). rewrite forallb_forall in Hall.
  specialize (Hall _ (sendLine_back_palette c2)).
  unfold sameParamsSameColors in Hall.
  rewrite Hp, listZ_eqb_refl in Hall. cbn [implb] in Hall.
  apply andb_true_iff in Hall as [Hb Hf]. apply Z.eqb_eq in Hb.
  split; [exact Hb|].
  apply orb_true_iff in Hf as [Hf|Hf].
  - left. now apply Z.eqb_eq.
  - right. apply andb_true_iff in Hf as [Hf H2]. apply andb_true_iff in Hf as [Hw H1].
    apply Z.eqb_eq in Hw.
    apply orb_true_iff in H1, H2. rewrite !Z.eqb_eq in H1, H2. auto.
Qed.

(** Black on white and light gray on white: the same fragment. *)
Lemma sendLine_color_injective_witness :
  sendLine_back 0xF0 = sendLine_back 0xF7 /\
  (sendLine_fore 0xF0 = sendLine_fore 0xF7 \/
   (sendLine_back 0xF0 = WHITE /\
    (sendLine_fore 0xF0 = BLACK \/ sendLine_fore 0xF0 = LTGRAY) /\
    (sendLine_fore 0xF7 = BLACK \/ sendLine_fore 0xF7 = LTGRAY))).
Proof. apply (sendLine_color_injective 0xF0 0xF7). reflexivity. Defined.

Lemma brightFollowsOwnBase_sound (d : bool) (ps : list Z) :
  forall prev : option Z,
    brightFollowsOwnBase d prev ps = true ->
    forall (i : nat) (p : Z),
      nth_error ps i = Some p -> 90 <= p ->
      match i with
      | O => exists q, prev = Some q /\
                       if d then p = 90 /\ q = 37 else q = p - 60
      | S j => if d then p = 90 /\ nth_error ps j = Some 37
               else nth_error ps j = Some (p - 60)
      end.
Proof.
  induction ps as [|p0 ps IH]; intros prev Hc i p Hi Hp.
  - destruct i; discriminate.
  - cbn [brightFollowsOwnBase] in Hc. apply andb_true_iff in Hc as [H0 Hrest].
    destruct i as [|j]; cbn [nth_error] in Hi.
    + injection Hi as ->.
      replace (90 <=? p) with true in H0 by (symmetry; apply Z.leb_le; exact Hp).
      destruct prev as [q|]; [|discriminate].
      exists q. split; [reflexivity|].
      destruct d.
      * apply andb_true_iff in H0 as [Ha Hb]. split; now apply Z.eqb_eq.
      * now apply Z.eqb_eq.
    + specialize (IH (Some p0) Hrest j p Hi Hp).
      destruct j as [|j'].
      * destruct IH as (q & Hq & Hb). injection Hq as <-. cbn [nth_error].
        destruct d.
        -- destruct Hb as [Hb1 Hb2]. now rewrite Hb2.
        -- now rewrite Hb.
      * exact IH.
Qed.

(** C8 (as stated, refuted): dark gray on black (attribute word 0x08) has
    the bright bit set in its foreground and gets the explicit fragment
    [ESC [ 0 ; 37 ; 90 m]: the bright code 90 follows 37, the code of light
    gray; the non-bright code of the colour itself, 30, is not there, as it
    would be had the channel gone through [outputSetColorSgrParams]. *)
Lemma sendLine_color_dkgray_fallback :
  flagSet (sendLine_fore 0x08) FLAG_BRIGHT = true /\
  sendLine_back 0x08 = BLACK /\
  sendLine_color "" 0x08 = CSI ++ "0;37;90m" /\
  sgrParams (sendLine_color "" 0x08) = Some [0; 37; 90] /\
  ~ In 30 [0; 37; 90] /\
  outputSetColorSgrParams (CSI ++ "0") true (sendLine_fore 0x08) ++ "m" =
    CSI ++ "0;30;90m" /\
  sendLine_color "" 0x08 <>
    outputSetColorSgrParams (CSI ++ "0") true (sendLine_fore 0x08) ++ "m".
Proof.
  repeat split; try reflexivity.
  - cbn [In]. intros [H|[H|[H|[]]]]; discriminate.
  - discriminate.
Qed.

(** C8 (amended): a colour channel with the bright bit set that is emitted
    through [outputSetColorSgrParams] gets its non-bright code (3X or 4X)
    immediately followed by the bright code of the same colour (9X or
    10X).  The one bright channel emitted outside it, the dark-gray
    foreground on black, gets 37 immediately followed by 90.  So in every
    colour fragment a bright code stands right after the code 60 below it,
    or, for dark gray on black, 90 stands right after 37; a bright code is
    never the first parameter and never emitted alone. *)
Theorem bright_code_follows_base :
  (forall (out : string) (isFore : bool) (color : Z),
     0 <= color < 16 -> flagSet color FLAG_BRIGHT = true ->
     outputSetColorSgrParams out isFore color =
       out ++ ";" ++ (if isFore then "3" else "4") ++ String (digitChar (color - 8)) ""
           ++ ";" ++ (if isFore then "9" else "10") ++ String (digitChar (color - 8)) "") /\
  (forall color : Z,
     exists ps : list Z,
       sgrParams (sendLine_color "" color) = Some ps /\
       forall (i : nat) (p : Z),
         nth_error ps i = Some p -> 90 <= p ->
         exists j : nat,
           i = S j /\
           if (sendLine_fore color =? DKGRAY) && (sendLine_back color =? BLACK)
           then p = 90 /\ nth_error ps j = Some 37
           else nth_error ps j = Some (p - 60)).
Proof.
  split.
  - intros out isFore color Hc Hb.
    rewrite (outputSetColorSgrParams_bright_pair out isFore color Hc), Hb.
    reflexivity.
  - intros color.
    pose proof (all_colors
      (fun f b frag => match sgrParams frag with
                       | Some ps =>
                           brightFollowsOwnBase ((f =? DKGRAY) && (b =? BLACK)) None ps
                       | None => false
                       end)) as H.
    specialize (H ltac:(vm_compute; reflexivity) color). cbv beta in H.
    destruct (sgrParams (sendLine_color "" color)) as [ps|]; [|discriminate].
    exists ps. split; [reflexivity|].
    intros i p Hi Hp.
    pose proof (brightFollowsOwnBase_sound _ ps None H i p Hi Hp) as Hs.
    destruct i as [|j].
    + destruct Hs as (q & Hq & _). discriminate.
    + exists j. split; [reflexivity | exact Hs].
Qed.

(** Bright red through [outputSetColorSgrParams], and the fragments of
    dark gray on black and of bright red on bright blue. *)
Lemma bright_code_follows_base_witness :
  outputSetColorSgrParams "" true 9 = ";31;91" /\
  outputSetColorSgrParams "" false 9 = ";41;101" /\
  (exists ps : list Z,
     sgrParams (sendLine_color "" 0x08) = Some ps /\
     forall (i : nat) (p : Z),
       nth_error ps i = Some p -> 90 <= p ->
       exists j : nat, i = S j /\ (p = 90 /\ nth_error ps j = Some 37)) /\
  (exists ps : list Z,
     sgrParams (sendLine_color "" 0x9C) = Some ps /\
     forall (i : nat) (p : Z),
       nth_error ps i = Some p -> 90 <= p ->
       exists j : nat, i = S j /\ nth_error ps j = Some (p - 60)).
Proof.
  split; [|split; [|split]].
  - apply (proj1 bright_code_follows_base "" true 9); [lia | reflexivity].
  - apply (proj1 bright_code_follows_base "" false 9); [lia | reflexivity].
  - exact (proj2 bright_code_follows_base 0x08).
  - exact (proj2 bright_code_follows_base 0x9C).
Defined.

End ColorPolicy.

(** ** Rows: edge cases and whole-row behaviour *)

Section Rows.
Import Bytes BytesFacts.

Variable enc : Z -> string.

(** The buffer and the state [sendLine] ends with, in terms of the row's
    emissions. *)
Lemma sendLine_emissions (line : Z) (lineData : list CHAR_INFO) (width : Z) (t : Terminal) :
  m_termLine (sendLine enc line lineData width t) =
    flatten (rowEmissions enc (m_remoteColor t) (m_consoleMode t)
               (firstn (Z.to_nat width) lineData)) /\
  m_output (sendLine enc line lineData width t) =
    (m_output (sendLine_prepared line t) ++
     [flatten (dropTrailingBlanks
                 (rowEmissions enc (m_remoteColor t) (m_consoleMode t)
                    (firstn (Z.to_nat width) lineData)))])%list.
Proof.
  rewrite sendLine_unfold.
  destruct (cells_loop_frame enc (firstn (Z.to_nat width) lineData)
              (sendLine_prepared line t, 0%nat)) as (Ho & _).
  destruct (sendLine_prepared_facts line t) as (Hrc & Hcm & Htl & _).
  destruct (cells_loop_emissions enc (firstn (Z.to_nat width) lineData)
              (sendLine_prepared line t) 0 [] Htl eq_refl) as (Hbuf & Hlen).
  rewrite Hrc, Hcm in Hbuf, Hlen. cbn [app] in Hbuf, Hlen. cbn [fst] in Ho.
  cbn [write m_output m_termLine].
  destruct (dropTrailingBlanks_spaces
              (rowEmissions enc (m_remoteColor t) (m_consoleMode t)
                 (firstn (Z.to_nat width) lineData))) as (n & Hn).
  rewrite Ho, Hlen, Hbuf. split; [reflexivity|].
  rewrite Hn. now rewrite take_append_exact.
Qed.

(** X7: [sendLine] reads the first [width] cells only: cells that follow
    them in the array have no effect on the state it ends with, the writes
    included. *)
Theorem sendLine_reads_width_cells (line : Z) (lineData extra : list CHAR_INFO)
    (width : Z) (t : Terminal) :
  width <= Z.of_nat (List.length lineData) ->
  sendLine enc line (lineData ++ extra) width t = sendLine enc line lineData width t.
Proof.
  intros H. rewrite !sendLine_unfold, firstn_app.
  replace (Z.to_nat width - List.length lineData)%nat with 0%nat by lia.
  cbn [firstn]. now rewrite app_nil_r.
Qed.

Lemma dropLeadingBlanks_all_blank (l : list string) :
  Forall (fun piece => piece = " ") l -> dropLeadingBlanks l = [].
Proof.
  induction 1 as [|piece l Hp _ IH]; cbn [dropLeadingBlanks]; [reflexivity|].
  now rewrite Hp, String.eqb_refl.
Qed.

Lemma dropTrailingBlanks_all_blank (l : list string) :
  Forall (fun piece => piece = " ") l -> dropTrailingBlanks l = [].
Proof.
  intros H. unfold dropTrailingBlanks.
  rewrite dropLeadingBlanks_all_blank; [reflexivity|].
  apply Forall_rev, H.
Qed.

(** Cells that need no colour fragment and are blank emit single spaces
    only. *)
Lemma rowEmissions_blank (cells : list CHAR_INFO) :
  forall (remoteColor : Z) (consoleMode : bool),
    Forall (fun c => negb (cellColor c =? remoteColor) && negb consoleMode = false /\
                     (cellTrailing c = true \/ sendLine_glyph enc c = " ")) cells ->
    Forall (fun piece => piece = " ") (rowEmissions enc remoteColor consoleMode cells).
Proof.
  induction cells as [|c cells IH]; intros rc cm H; cbn [rowEmissions].
  - constructor.
  - inversion H as [|c' cells' (Hc & Hg) Hrest]; subst.
    rewrite Hc. cbn [app].
    assert (Htail : Forall (fun piece => piece = " ")
                      (rowEmissions enc (cellColor c) cm cells)).
    { apply IH. eapply Forall_impl; [|exact Hrest].
      intros c' (Hc' & Hg'). split; [|exact Hg'].
      destruct cm; [now rewrite andb_false_r|].
      rewrite andb_true_r in Hc, Hc'.
      apply negb_false_iff, Z.eqb_eq in Hc, Hc'.
      rewrite Hc', Hc, Z.eqb_refl. reflexivity. }
    destruct Hg as [Hg|Hg].
    + rewrite Hg. exact Htail.
    + destruct (cellTrailing c); [exact Htail|].
      cbn [app]. constructor; [exact Hg | exact Htail].
Qed.

(** X8: a row of blank cells in the colour the encoder already has (or in
    console mode) transmits no content at all: every cell either is a
    trailing half or encodes to a single space, no colour fragment is due,
    and the content write is the empty string. *)
Theorem sendLine_blank_row (line : Z) (lineData : list CHAR_INFO) (width : Z) (t : Terminal) :
  Forall (fun c => cellChanged t c = false /\
                   (cellTrailing c = true \/ sendLine_glyph enc c = " "))
         (firstn (Z.to_nat width) lineData) ->
  m_output (sendLine enc line lineData width t) =
    (m_output (sendLine_prepared line t) ++ [""])%list.
Proof.
  intros H.
  destruct (sendLine_emissions line lineData width t) as (_ & Ho).
  rewrite Ho, dropTrailingBlanks_all_blank; [reflexivity|].
  apply rowEmissions_blank. exact H.
Qed.

Lemma rowEmissions_console (cells : list CHAR_INFO) :
  forall remoteColor : Z,
    rowEmissions enc remoteColor true cells =
    map (sendLine_glyph enc) (filter (fun c => negb (cellTrailing c)) cells).
Proof.
  induction cells as [|c cells IH]; intros rc; cbn [rowEmissions filter map].
  - reflexivity.
  - rewrite andb_false_r, IH. cbn [app].
    destruct (cellTrailing c); reflexivity.
Qed.

(** X9: in console mode the row buffer is the encoded bytes of the cells
    that are not trailing halves, in order, and nothing else; the content
    write is these bytes without the single spaces at the end of the
    row. *)
Theorem sendLine_console_raw_text (line : Z) (lineData : list CHAR_INFO) (width : Z)
    (t : Terminal) :
  m_consoleMode t = true ->
  m_termLine (sendLine enc line lineData width t) =
    flatten (map (sendLine_glyph enc)
               (filter (fun c => negb (cellTrailing c))
                  (firstn (Z.to_nat width) lineData))) /\
  m_output (sendLine enc line lineData width t) =
    (m_output (moveTerminalToLine line (hideTerminalCursor t)) ++
     [flatten (dropTrailingBlanks
        (map (sendLine_glyph enc)
           (filter (fun c => negb (cellTrailing c))
              (firstn (Z.to_nat width) lineData))))])%list.
Proof.
  intros Hm.
  destruct (sendLine_emissions line lineData width t) as (Hb & Ho).
  destruct (sendLine_prepared_facts line t) as (_ & _ & _ & Hp).
  rewrite Hm in *. rewrite rowEmissions_console in Hb, Ho.
  rewrite Hb, Ho, Hp, app_nil_r. auto.
Qed.

(** X10: after [reset] the colour is unset, and no cell colour equals the
    unset value: with console mode off, the content of the first row
    rendered after a reset opens with the colour fragment of its first
    cell, whatever colour that is. *)
Theorem sendLine_after_reset (sendClearFirst : bool) (newLine : Z) (line : Z)
    (lineData : list CHAR_INFO) (width : Z) (t : Terminal)
    (c : CHAR_INFO) (rest : list CHAR_INFO) :
  m_consoleMode t = false ->
  firstn (Z.to_nat width) lineData = c :: rest ->
  exists (n : nat) (tail : string),
    m_output (sendLine enc line lineData width (reset sendClearFirst newLine t)) =
      (m_output (sendLine_prepared line (reset sendClearFirst newLine t)) ++
       [(sendLine_color "" (cellColor c) ++ take n (cellText enc c ++ tail))%string])%list.
Proof.
  intros Hm Hcells.
  destruct (sendLine_content_opens enc line lineData width
              (reset sendClearFirst newLine t) c rest Hcells) as (n & tail & H).
  exists n, tail. rewrite H.
  destruct (reset_belief sendClearFirst newLine t) as (_ & Hcm).
  assert (Hrc : m_remoteColor (reset sendClearFirst newLine t) = -1) by reflexivity.
  unfold cellFragment, cellChanged. rewrite Hrc, Hcm, Hm.
  assert (Hne : (cellColor c =? -1) = false).
  { apply Z.eqb_neq. unfold cellColor.
    change COLOR_ATTRIBUTE_MASK with 255.
    pose proof (land_byte (Attributes c)). lia. }
  rewrite Hne. reflexivity.
Qed.

(** X11: with console mode off, [finishOutput] called with the cursor
    hidden or with coordinates other than the stored ones hides the cursor
    if needed, moves to the requested row and ends with one write that
    sets the column (counted from 1) and shows the cursor; the encoder
    then has the cursor shown on that row. *)
Theorem finishOutput_reveals (p : Z * Z) (t : Terminal) :
  m_consoleMode t = false ->
  m_cursorHidden t = true \/ p <> m_cursorPos t ->
  m_output (finishOutput p t) =
    (m_output (moveTerminalToLine (snd p) (hideTerminalCursor t)) ++
     [(CSI ++ sprintf_d (fst p + 1) ++ "G" ++ CSI ++ "?25h")%string])%list /\
  m_cursorHidden (finishOutput p t) = false /\
  m_remoteLine (finishOutput p t) = snd p.
Proof.
  intros Hm Hcase.
  destruct (hideTerminalCursor_belief t) as (Hb1 & Hm1 & _).
  unfold belief in Hb1. injection Hb1 as _ Hh1 _ _.
  assert (Ht1 : (if negb ((fst p =? fst (m_cursorPos t)) && (snd p =? snd (m_cursorPos t)))
                 then hideTerminalCursor t else t) = hideTerminalCursor t).
  { destruct (negb ((fst p =? fst (m_cursorPos t)) && (snd p =? snd (m_cursorPos t))))
      eqn:Hne; [reflexivity|].
    apply negb_false_iff, andb_true_iff in Hne as [H1 H2].
    apply Z.eqb_eq in H1, H2.
    destruct Hcase as [Hh|Hp].
    - unfold hideTerminalCursor. now rewrite Hh.
    - exfalso. apply Hp. destruct p, (m_cursorPos t). cbn in *. congruence. }
  unfold finishOutput. rewrite Ht1, Hh1.
  destruct (moveTerminalToLine_belief (snd p) (hideTerminalCursor t)) as (Hb2 & Hm2 & _).
  unfold belief in Hb2. injection Hb2 as Hrl2 _ _ _.
  unfold writeUnlessConsole. rewrite Hm2, Hm1, Hm. cbn. auto.
Qed.

(** X12: [sendLine] leaves the cursor hidden on the row it rendered:
    hiding the cursor again changes nothing, and a move to the same row
    writes a bare carriage return and nothing else. *)
Theorem sendLine_leaves_cursor_hidden (line : Z) (lineData : list CHAR_INFO) (width : Z)
    (t : Terminal) :
  hideTerminalCursor (sendLine enc line lineData width t) =
    sendLine enc line lineData width t /\
  m_output (moveTerminalToLine line (sendLine enc line lineData width t)) =
    (m_output (sendLine enc line lineData width t) ++ [CR])%list.
Proof.
  destruct (sendLine_belief enc line lineData width t) as (Hb & _).
  assert (Hrl : m_remoteLine (sendLine enc line lineData width t) = line)
    by exact (f_equal (fun b => fst (fst (fst b))) Hb).
  assert (Hh : m_cursorHidden (sendLine enc line lineData width t) = true)
    by exact (f_equal (fun b => snd (fst (fst b))) Hb).
  split.
  - unfold hideTerminalCursor. now rewrite Hh.
  - rewrite <- Hrl at 1. apply moveTerminalToLine_same_row.
Qed.

Lemma flatten_single (x : string) : flatten [x] = x.
Proof. unfold flatten. cbn [fold_right]. apply append_nil_r. Qed.

Lemma rowEmissions_uniform (cells : list CHAR_INFO) :
  forall (k : Z) (consoleMode : bool),
    Forall (fun c => cellColor c = k) cells ->
    flatten (rowEmissions enc k consoleMode cells) = flatten (map (cellText enc) cells).
Proof.
  induction cells as [|c cells IH]; intros k cm H; cbn [rowEmissions map].
  - reflexivity.
  - inversion H as [|c' cells' Hc Hrest]; subst.
    rewrite Z.eqb_refl. cbn [negb andb app].
    rewrite flatten_app, (IH _ cm Hrest).
    change (flatten (cellText enc c :: map (cellText enc) cells))
      with (cellText enc c ++ flatten (map (cellText enc) cells)).
    f_equal. unfold cellText.
    destruct (cellTrailing c); [reflexivity | apply flatten_single].
Qed.

(** X13: a row whose cells all have one colour carries at most one colour
    fragment, at its start: the row buffer is the fragment of the first
    cell, if its colour differs from the colour the call starts with and
    console mode is off, followed by the encoded bytes of the cells. *)
Theorem sendLine_uniform_row (line : Z) (lineData : list CHAR_INFO) (width : Z)
    (t : Terminal) (c : CHAR_INFO) (rest : list CHAR_INFO) :
  firstn (Z.to_nat width) lineData = c :: rest ->
  Forall (fun c' => cellColor c' = cellColor c) rest ->
  m_termLine (sendLine enc line lineData width t) =
    cellFragment t c ++ flatten (map (cellText enc) (c :: rest)).
Proof.
  intros Hcells Hall.
  destruct (sendLine_emissions line lineData width t) as (Hb & _).
  rewrite Hb, Hcells. cbn [rowEmissions map]. fold (cellChanged t c).
  rewrite !flatten_app, (rowEmissions_uniform rest _ _ Hall).
  change (flatten (cellText enc c :: map (cellText enc) rest))
    with (cellText enc c ++ flatten (map (cellText enc) rest)).
  unfold cellFragment, cellText.
  destruct (cellChanged t c), (cellTrailing c); rewrite ?flatten_single; reflexivity.
Qed.

(** The preparation of a row does not look at the scratch buffer. *)
Lemma sendLine_prepared_termLine (line : Z) (x : string) (t : Terminal) :
  sendLine_prepared line (set_termLine x t) = sendLine_prepared line t.
Proof.
  destruct t as [o rl ch cp rc cm tl].
  unfold sendLine_prepared, hideTerminalCursor, moveTerminalToLine, writeUnlessConsole,
         set_termLine, set_cursorHidden, set_remoteLine, write.
  cbn [m_output m_remoteLine m_cursorHidden m_cursorPos m_remoteColor m_consoleMode
       m_termLine].
  destruct ch, cm;
    cbn [negb m_output m_remoteLine m_cursorHidden m_cursorPos m_remoteColor
         m_consoleMode m_termLine];
    destruct (Z.ltb_spec line rl); try reflexivity;
    destruct (Z.gtb_spec line rl); try reflexivity;
    rewrite !moveTerminalToLine_loop_spec by (cbn; lia); reflexivity.
Qed.

(** X14: the row buffer is a scratch buffer: what it holds when [sendLine]
    is called (the bytes of the row rendered before) has no effect on the
    writes and on the state [sendLine] ends with. *)
Theorem sendLine_scratch_buffer (line : Z) (lineData : list CHAR_INFO) (width : Z)
    (x : string) (t : Terminal) :
  sendLine enc line lineData width (set_termLine x t) =
  sendLine enc line lineData width t.
Proof.
  rewrite !sendLine_unfold.
  rewrite sendLine_prepared_termLine.
  reflexivity.
Qed.

Lemma boxDrawing_other (ch : Z) :
  ch <> 1 -> ch <> 2 -> ch <> 3 -> ch <> 4 -> ch <> 5 -> ch <> 6 -> boxDrawing ch = ch.
Proof.
  intros H1 H2 H3 H4 H5 H6.
  destruct ch as [|p|p]; try reflexivity.
  destruct p as [[[?|?|]|[?|?|]|]|[[?|?|]|[?|?|]|]|]; try reflexivity; lia.
Qed.

Lemma sendLine_glyph_boxDrawing (cell : CHAR_INFO) :
  sendLine_glyph enc (withBoxDrawing cell) = sendLine_glyph enc cell.
Proof.
  unfold sendLine_glyph, withBoxDrawing. cbn [UnicodeChar].
  destruct (Z.eq_dec (UnicodeChar cell) 1) as [->|H1]; [reflexivity|].
  destruct (Z.eq_dec (UnicodeChar cell) 2) as [->|H2]; [reflexivity|].
  destruct (Z.eq_dec (UnicodeChar cell) 3) as [->|H3]; [reflexivity|].
  destruct (Z.eq_dec (UnicodeChar cell) 4) as [->|H4]; [reflexivity|].
  destruct (Z.eq_dec (UnicodeChar cell) 5) as [->|H5]; [reflexivity|].
  destruct (Z.eq_dec (UnicodeChar cell) 6) as [->|H6]; [reflexivity|].
  rewrite (boxDrawing_other _ H1 H2 H3 H4 H5 H6).
  fold (boxDrawing (UnicodeChar cell)).
  now rewrite (boxDrawing_other _ H1 H2 H3 H4 H5 H6).
Qed.

Lemma cells_loop_boxDrawing (cells : list CHAR_INFO) :
  forall st, cells_loop enc (map withBoxDrawing cells) st = cells_loop enc cells st.
Proof.
  induction cells as [|c cells IH]; intros st; cbn [map cells_loop fold_left].
  - reflexivity.
  - fold (cells_loop enc (map withBoxDrawing cells)). fold (cells_loop enc cells).
    rewrite IH. f_equal.
    unfold sendLine_cell. rewrite sendLine_glyph_boxDrawing. reflexivity.
Qed.

(** X15: the code units 1 .. 6 are rendered as the box-drawing characters
    U+2554, U+2557, U+255A, U+255D, U+2551 and U+2550: a row with these
    code units and the row with the characters in their place give the
    same writes and the same state. *)
Theorem sendLine_box_drawing (line : Z) (lineData : list CHAR_INFO) (width : Z)
    (t : Terminal) :
  sendLine enc line (map withBoxDrawing lineData) width t =
  sendLine enc line lineData width t.
Proof.
  rewrite !sendLine_unfold, firstn_map, cells_loop_boxDrawing. reflexivity.
Qed.

Lemma perform_colorKnown (o : operation) (t : Terminal) :
  colorKnown t -> colorKnown (perform enc o t).
Proof.
  unfold colorKnown. intros H.
  destruct o as [b n | line data width | p | | line]; cbn [perform].
  - left. reflexivity.
  - destruct (sendLine_belief enc line data width t) as (Hb & _).
    pose proof (f_equal snd Hb) as Hrc. cbn [belief snd] in Hrc. rewrite Hrc.
    destruct (firstn (Z.to_nat width) data) as [|c rest]; [exact H|].
    right. unfold cellColor. change COLOR_ATTRIBUTE_MASK with 255. apply land_byte.
  - destruct (finishOutput_belief p t) as (Hb & _).
    pose proof (f_equal snd Hb) as Hrc. cbn [belief snd] in Hrc. now rewrite Hrc.
  - destruct (hideTerminalCursor_belief t) as (Hb & _).
    pose proof (f_equal snd Hb) as Hrc. cbn [belief snd] in Hrc. now rewrite Hrc.
  - destruct (moveTerminalToLine_belief line t) as (Hb & _).
    pose proof (f_equal snd Hb) as Hrc. cbn [belief snd] in Hrc. now rewrite Hrc.
Qed.

(** X16: the colour the encoder remembers is always the unset value -1 or
    a colour word between 0 and 255: every operation keeps this, so the
    unset value is never mistaken for the colour of a cell. *)
Theorem performAll_colorKnown (os : list operation) :
  forall t : Terminal, colorKnown t -> colorKnown (performAll enc os t).
Proof.
  induction os as [|o os IH]; intros t H; cbn [performAll fold_left].
  - exact H.
  - apply IH, perform_colorKnown, H.
Qed.

End Rows.

(** ** Rows: sample instances *)

Section RowSamples.

Lemma sendLine_reads_width_cells_witness :
  sendLine utf8_of_wchar 0 ([cellA] ++ [cellBlankBlue; cellTrail]) 1 Terminal_new =
  sendLine utf8_of_wchar 0 [cellA] 1 Terminal_new.
Proof.
  apply (sendLine_reads_width_cells utf8_of_wchar 0 [cellA] [cellBlankBlue; cellTrail] 1 Terminal_new).
  cbn. lia.
Defined.

Lemma sendLine_blank_row_witness :
  m_output (sendLine utf8_of_wchar 0 [cellBlank; cellTrail; cellBlank] 3 afterRowA) =
    (m_output (sendLine_prepared 0 afterRowA) ++ [""])%list.
Proof.
  apply (sendLine_blank_row utf8_of_wchar 0 [cellBlank; cellTrail; cellBlank] 3 afterRowA).
  apply Forall_cons; [split; [reflexivity | right; reflexivity]|].
  apply Forall_cons; [split; [reflexivity | left; reflexivity]|].
  apply Forall_cons; [split; [reflexivity | right; reflexivity]|].
  apply Forall_nil.
Defined.

Lemma sendLine_console_raw_text_witness :
  m_termLine (sendLine utf8_of_wchar 0 [cellA; cellTrail; cellBlankBlue] 3
                (setConsoleMode 1 Terminal_new)) =
    Bytes.flatten (map (sendLine_glyph utf8_of_wchar)
               (filter (fun c => negb (cellTrailing c))
                  (firstn (Z.to_nat 3) [cellA; cellTrail; cellBlankBlue]))) /\
  m_output (sendLine utf8_of_wchar 0 [cellA; cellTrail; cellBlankBlue] 3
              (setConsoleMode 1 Terminal_new)) =
    (m_output (moveTerminalToLine 0 (hideTerminalCursor (setConsoleMode 1 Terminal_new))) ++
     [Bytes.flatten (dropTrailingBlanks
        (map (sendLine_glyph utf8_of_wchar)
           (filter (fun c => negb (cellTrailing c))
              (firstn (Z.to_nat 3) [cellA; cellTrail; cellBlankBlue]))))])%list.
Proof.
  apply (sendLine_console_raw_text utf8_of_wchar 0 [cellA; cellTrail; cellBlankBlue] 3
           (setConsoleMode 1 Terminal_new)).
  reflexivity.
Defined.

Lemma sendLine_after_reset_witness :
  exists (n : nat) (tail : string),
    m_output (sendLine utf8_of_wchar 0 [cellA] 1 (reset true 0 afterRowA)) =
      (m_output (sendLine_prepared 0 (reset true 0 afterRowA)) ++
       [(sendLine_color "" (cellColor cellA) ++
         Bytes.take n (cellText utf8_of_wchar cellA ++ tail))%string])%list.
Proof.
  apply (sendLine_after_reset utf8_of_wchar true 0 0 [cellA] 1 afterRowA cellA []);
    reflexivity.
Defined.

Lemma finishOutput_reveals_witness :
  m_output (finishOutput (1, 0) afterRowA) =
    (m_output (moveTerminalToLine (snd (1, 0)) (hideTerminalCursor afterRowA)) ++
     [(CSI ++ sprintf_d (fst (1, 0) + 1) ++ "G" ++ CSI ++ "?25h")%string])%list /\
  m_cursorHidden (finishOutput (1, 0) afterRowA) = false /\
  m_remoteLine (finishOutput (1, 0) afterRowA) = snd (1, 0).
Proof.
  apply (finishOutput_reveals (1, 0) afterRowA); [reflexivity|].
  left. reflexivity.
Defined.

Lemma sendLine_uniform_row_witness :
  m_termLine (sendLine utf8_of_wchar 0 [cellA; cellBlank; cellA] 3 Terminal_new) =
    cellFragment Terminal_new cellA ++
    Bytes.flatten (map (cellText utf8_of_wchar) [cellA; cellBlank; cellA]).
Proof.
  apply (sendLine_uniform_row utf8_of_wchar 0 [cellA; cellBlank; cellA] 3 Terminal_new
           cellA [cellBlank; cellA]); [reflexivity|].
  repeat constructor.
Defined.

Lemma performAll_colorKnown_witness :
  colorKnown (performAll utf8_of_wchar
                [OpReset true 0; OpSendLine 0 [cellA; cellBlankBlue] 2; OpFinishOutput (2, 0)]
                Terminal_new).
Proof.
  apply (performAll_colorKnown utf8_of_wchar
           [OpReset true 0; OpSendLine 0 [cellA; cellBlankBlue] 2; OpFinishOutput (2, 0)]
           Terminal_new).
  left. reflexivity.
Defined.

End RowSamples.
